(** * vcloud cloud provider: instance cache, request client, resolver

    A shallow embedding of the Go package [vcloud]
    (instance cache, [VCloudProvider.Request], [GetInstanceInfo],
    [getProviderID], [isInstanceShutdown]) and the properties the
    design document states about them.

    Conventions.
    - Go [string] is [string] (a sequence of bytes).
    - [time.Time] is a reading of the monotonic clock in nanoseconds
      ([Z]); [time.Duration] is a signed 64-bit count of nanoseconds
      ([Z], with the saturation of [Time.Sub] written out).
    - A Go [map[string]T] is a [gmap string T].
    - The network, the clock and the observable events live in a
      [World] that every effectful function threads through.
    - One goroutine at a time: interleavings of concurrent callers are
      not part of this development. *)

From Stdlib Require Import ZArith List Bool Lia Ascii String.
From stdpp Require Import base option gmap strings list fin_maps.

Local Open Scope string_scope.
Local Open Scope list_scope.
Local Open Scope Z_scope.

(** ** Package [strings] *)

Module GoStrings.

(** [strings.CutPrefix(s, prefix)]: the rest of [s] after [prefix]. *)
Fixpoint CutPrefix (s prefix : string) {struct prefix} : option string :=
  match prefix with
  | EmptyString => Some s
  | String p prefix' =>
      match s with
      | EmptyString => None
      | String c s' =>
          if Ascii.eqb c p then CutPrefix s' prefix' else None
      end
  end.

(** [strings.Cut(s, sep)]: the text before and after the first
    (leftmost) instance of [sep] in [s], if there is one. *)
Fixpoint Cut (s sep : string) : option (string * string) :=
  match CutPrefix s sep with
  | Some after => Some (EmptyString, after)
  | None =>
      match s with
      | EmptyString => None
      | String c s' =>
          match Cut s' sep with
          | Some (before, after) => Some (String c before, after)
          | None => None
          end
      end
  end.

(** [strings.Contains(s, substr)]. *)
Definition Contains (s substr : string) : bool :=
  match Cut s substr with Some _ => true | None => false end.

(** The loop of [genSplit] for a non-empty separator: cut at the
    leftmost instance of [sep], keep the text before it, go on with
    the text after it.  [n] bounds the number of cuts. *)
Fixpoint splitN (n : nat) (s sep : string) : list string :=
  match n with
  | O => [s]
  | S n' =>
      match Cut s sep with
      | Some (before, after) => before :: splitN n' after sep
      | None => [s]
      end
  end.

(** [strings.Split(s, sep)] for a non-empty [sep]; a string of
    length [n] holds at most [n] disjoint instances of it. *)
Definition Split (s sep : string) : list string :=
  splitN (String.length s) s sep.

(** [s] holds two instances of [sep] that do not overlap. *)
Definition twice (s sep : string) : Prop :=
  exists a b c, s = a +:+ sep +:+ b +:+ sep +:+ c.

End GoStrings.

(** ** Node identity and power-state classification (instances.go) *)

(** The two fields of [v1.Node] that [getProviderID] reads. *)
Record Node := {
  Name : string;              (* node.ObjectMeta.Name *)
  SpecProviderID : string     (* node.Spec.ProviderID *)
}.

Definition getProviderID (node : Node) : string :=
  if negb (String.eqb (SpecProviderID node) "") then
    let parts := GoStrings.Split (SpecProviderID node) "://" in
    if Nat.eqb (length parts) 2 then
      nth 1 parts ""
    else
      SpecProviderID node
  else
    Name node.

Definition shutdownStates : gmap string bool :=
  <["POWERED_OFF" := true]>
  (<["SUSPENDED" := true]>
  (<["TERMINATED" := true]>
  (<["BACKUP" := true]>
  (<["BACKUP_POWEROFF" := true]> ∅)))).

(** Indexing a Go map with a missing key yields the zero value. *)
Definition isInstanceShutdown (state : string) : bool :=
  default false (shutdownStates !! state).

(** ** Package [time] *)

Definition Time := Z.
Definition Duration := Z.

Definition Second : Duration := 1000000000.
Definition minDuration : Duration := - 2 ^ 63.
Definition maxDuration : Duration := 2 ^ 63 - 1.

(** [Time.Sub]: the difference of two readings, saturated to the
    range of [Duration]. *)
Definition Sub (t u : Time) : Duration :=
  if t - u <? minDuration then minDuration
  else if maxDuration <? t - u then maxDuration
  else t - u.

(** [time.Since(t)] when the clock reads [now]. *)
Definition Since (now t : Time) : Duration := Sub now t.

(** ** Data model (instances.go, cache.go, vcloud.go) *)

Record InstanceCluster := {
  ClusterID : string;
  ClusterZone : string;
  ClusterTenant : string
}.

Record InstanceResources := {
  Cores : Z;
  Memory : Z;
  Volumes : Z
}.

Record InstanceMeta := {
  IP : string;
  Flavor : string;
  Cluster : InstanceCluster;
  Resources : InstanceResources
}.

(** [Instance]: the instance object of the management API. *)
Record Instance := {
  InstName : string;
  ID : string;
  UID : string;
  Type_ : string;
  Zone : string;
  Status : string;
  State : string;
  Owned : bool;
  Metadata : InstanceMeta
}.

Inductive NodeAddressType := NodeInternalIP | NodeExternalIP | NodeHostName.

Record NodeAddress := {
  AddrType : NodeAddressType;
  Address : string
}.

(** [cloudprovider.InstanceMetadata]. *)
Record InstanceMetadata := {
  ProviderID : string;
  InstanceType : string;
  NodeAddresses : list NodeAddress;
  MetaZone : string;
  Region : string;
  AdditionalLabels : gmap string string
}.

Record InstanceInfo := {
  Exists : bool;
  Shutdown : bool;
  InfoMetadata : option InstanceMetadata;   (* nil when absent *)
  RawInstance : option Instance             (* nil when absent *)
}.

Record cacheEntry := {
  info : InstanceInfo;
  timestamp : Time;
  ttl : Duration
}.

Record VCloudProvider := {
  clusterName : string;
  clusterID : string;
  mgmtURL : string;
  providerToken : string
}.

Record instanceCache := {
  cache : gmap string cacheEntry;
  provider : VCloudProvider
}.

Definition maxRetries : nat := 3.
Definition instanceCacheTTL : Duration := 30 * Second.
Definition nonExistentCacheTTL : Duration := 5 * Second.

(** ** Errors and results *)

Inductive error :=
| ErrTransport (msg : string)
    (* the error of a failed [httpClient.Do] *)
| ErrContext
    (* [httpClient.Do] failing on a context that is done: the
       context's error, or the error with which the transport turns
       the request down before it looks at the context *)
| ErrCreateRequest (cause : string)
    (* "failed to create request: %v" *)
| ErrGetInstance (id : string) (cause : error)
    (* "failed to get instance %s: %v" *)
| ErrUnexpectedStatus (code : Z) (body : string)
    (* "unexpected status code %d: %s" *)
| ErrDecode (cause : string).
    (* "failed to decode response: %v" *)

(** The result of a Go function returning a pointer and an error, all
    of whose returns have exactly one of the two non-nil; or a
    nil-pointer panic. *)
Inductive result (A : Type) :=
| Ok (a : A)
| Err (e : error)
| NilDeref.
Arguments Ok {A} a.
Arguments Err {A} e.
Arguments NilDeref {A}.

(** ** The world: clock, network, observable events *)

Record HttpRequest := {
  Method : string;
  URL : string;
  Header : list (string * string);
  ReqBody : option string
}.

Record Response := {
  StatusCode : Z;
  Body : string
}.

Inductive Outcome :=
| Failed (e : error)
| Responded (resp : Response).

(** What the remote end answers to a round trip, and how long the
    round trip takes.  Time-outs of the HTTP client are among the
    failures the remote end can answer. *)
Record Exchange := {
  outcome : Outcome;
  elapsed : Duration
}.

Inductive Event :=
| EvDo (t : Time) (req : HttpRequest)   (* a call of [httpClient.Do] at time [t] *)
| EvSleep (d : Duration).               (* a call of [time.Sleep] *)

(** Time passes in [time.Sleep] and in round trips only; the
    bookkeeping of the cache takes none, so what [get] reads off the
    clock while it stores and sweeps is one and the same instant. *)
Record World := {
  clock : Time;                                (* time.Now() *)
  rounds : nat;                                (* round trips made so far *)
  remote : nat -> HttpRequest -> Exchange;     (* the k-th round trip *)
  trace : list Event                           (* oldest first *)
}.

(** A [context.Context]: the instant at which it is cancelled or its
    deadline passes, if any.  Once done it stays done. *)
Record Context := {
  doneAt : option Time
}.

Definition ctxDone (ctx : Context) (t : Time) : bool :=
  match doneAt ctx with
  | Some d => d <=? t
  | None => false
  end.

Definition log (ev : Event) (w : World) : World :=
  {| clock := clock w; rounds := rounds w; remote := remote w;
     trace := trace w ++ [ev] |}.

(** [time.Sleep(d)]. *)
Definition Sleep (d : Duration) (w : World) : World :=
  {| clock := clock w + d; rounds := rounds w; remote := remote w;
     trace := trace w ++ [EvSleep d] |}.

(** [httpClient.Do(req)] for a request built with [ctx].  A context
    that is already done fails the call at once, without a round
    trip; one that becomes done while the round trip is in flight
    fails it at that instant.  Which error a call on a done context
    fails with (the context's, or the transport's own when it turns
    the request down for its scheme, host or headers first) is not
    told apart: [ErrContext] stands for either. *)
Definition Do (ctx : Context) (req : HttpRequest) (w : World)
  : Outcome * World :=
  let w0 := log (EvDo (clock w) req) w in
  if ctxDone ctx (clock w) then (Failed ErrContext, w0)
  else
    let ex := remote w (rounds w) req in
    let arrival := clock w + elapsed ex in
    match doneAt ctx with
    | Some d =>
        if d <? arrival then
          (Failed ErrContext,
           {| clock := d; rounds := S (rounds w); remote := remote w;
              trace := trace w0 |})
        else
          (outcome ex,
           {| clock := arrival; rounds := S (rounds w); remote := remote w;
              trace := trace w0 |})
    | None =>
        (outcome ex,
         {| clock := arrival; rounds := S (rounds w); remote := remote w;
            trace := trace w0 |})
    end.

(** ** Request client, resolver and cache *)

Section Provider.

(** Library behaviour the package relies on:
    the error, if any, of [http.NewRequestWithContext] for a method
    and a URL, and the decoding by [encoding/json] of a response
    body into [apiResp.Data.Instance]. *)
Variable newRequestError : string -> string -> option string.
Variable decodeInstance : string -> string + Instance.

(** *** vcloud.go *)

(** The URL that [Request] builds from the provider and the path. *)
Definition requestURL (p : VCloudProvider) (path : string) : string :=
  let url :=
    if negb (GoStrings.Contains (mgmtURL p) "/clusters/") then
      mgmtURL p +:+ "/clusters/" +:+ clusterID p
    else mgmtURL p in
  if negb (String.eqb path "") then url +:+ path else url.

(** The request of one attempt, with the two headers set. *)
Definition newRequest (p : VCloudProvider) (method url : string)
    (body : option string) : HttpRequest :=
  {| Method := method; URL := url;
     Header := [("X-Provider-Token", providerToken p);
                ("Content-Type", "application/json")];
     ReqBody := body |}.

(** The loop [for i := 0; i < maxRetries; i++] of [Request], by
    recursion on [maxRetries - i].  [resp] is the variable of that
    name declared before the loop; the [err] declared there is
    shadowed inside the loop and stays nil. *)
Fixpoint retryLoop (remaining i : nat) (resp : option Response)
    (p : VCloudProvider) (ctx : Context) (method url : string)
    (body : option string) (w : World)
  : (option Response * option error) * World :=
  match remaining with
  | O => ((resp, None), w)
  | S remaining' =>
      match newRequestError method url with
      | Some cause => ((None, Some (ErrCreateRequest cause)), w)
      | None =>
          let '(o, w1) := Do ctx (newRequest p method url body) w in
          match o with
          | Failed e =>
              if (i <? maxRetries - 1)%nat then
                retryLoop remaining' (S i) None p ctx method url body
                  (Sleep (Z.of_nat (i + 1) * Second) w1)
              else ((None, Some e), w1)
          | Responded r =>
              if (500 <=? StatusCode r) && (i <? maxRetries - 1)%nat then
                retryLoop remaining' (S i) (Some r) p ctx method url body
                  (Sleep (Z.of_nat (i + 1) * Second) w1)
              else ((Some r, None), w1)
          end
      end
  end.

Definition Request (p : VCloudProvider) (ctx : Context)
    (method path : string) (body : option string) (w : World)
  : (option Response * option error) * World :=
  retryLoop maxRetries 0 None p ctx method (requestURL p path) body w.

(** *** instances.go *)

Definition absent : InstanceInfo :=
  {| Exists := false; Shutdown := false;
     InfoMetadata := None; RawInstance := None |}.

Definition GetInstanceInfo (p : VCloudProvider) (ctx : Context)
    (instanceID : string) (w : World) : result InstanceInfo * World :=
  let path := "/instances/" +:+ instanceID in
  let '((resp, err), w') := Request p ctx "GET" path None w in
  match err with
  | Some e => (Err (ErrGetInstance instanceID e), w')
  | None =>
      match resp with
      | None => (NilDeref, w')
      | Some resp =>
          if StatusCode resp =? 404 then (Ok absent, w')
          else if negb (StatusCode resp =? 200) then
            (Err (ErrUnexpectedStatus (StatusCode resp) (Body resp)), w')
          else
            match decodeInstance (Body resp) with
            | inl cause => (Err (ErrDecode cause), w')
            | inr instance =>
                if String.eqb (Status instance) "terminated" then
                  (Ok absent, w')
                else
                  let shutdown := isInstanceShutdown (State instance) in
                  let metadata :=
                    {| ProviderID := instanceID;
                       InstanceType := Flavor (Metadata instance);
                       NodeAddresses :=
                         [{| AddrType := NodeInternalIP;
                             Address := IP (Metadata instance) |}];
                       MetaZone := Zone instance;
                       Region := ClusterTenant (Cluster (Metadata instance));
                       AdditionalLabels :=
                         <["k8s.io.infra.vnetwork.dev/instance-type" :=
                             Flavor (Metadata instance)]>
                         (<["k8s.io.infra.vnetwork.dev/cluster-id" :=
                             ClusterID (Cluster (Metadata instance))]> ∅)
                    |} in
                  (Ok {| Exists := true; Shutdown := shutdown;
                         InfoMetadata := Some metadata;
                         RawInstance := Some instance |}, w')
            end
      end
  end.

(** *** cache.go *)

Definition newInstanceCache (p : VCloudProvider) : instanceCache :=
  {| cache := ∅; provider := p |}.

(** [isExpired] when the clock reads [now]. *)
Definition isExpired (now : Time) (entry : cacheEntry) : bool :=
  ttl entry <? Since now (timestamp entry).

(** [cleanupOldEntriesLocked] when the clock reads [now]: the
    entries that are not expired stay. *)
Definition cleanupOldEntriesLocked (now : Time)
    (m : gmap string cacheEntry) : gmap string cacheEntry :=
  filter (fun kv => isExpired now kv.2 = false) m.

(** The TTL that [get] picks for a record. *)
Definition ttlFor (i : InstanceInfo) : Duration :=
  if negb (Exists i) then nonExistentCacheTTL else instanceCacheTTL.

(** [get] from the call of [GetInstanceInfo] on: fetch, and store
    what a successful fetch returns. *)
Definition fetchAndStore (c : instanceCache) (ctx : Context)
    (instanceID : string) (w : World)
  : result InstanceInfo * instanceCache * World :=
  match GetInstanceInfo (provider c) ctx instanceID w with
  | (Err e, w') => (Err e, c, w')
  | (NilDeref, w') => (NilDeref, c, w')
  | (Ok i, w') =>
      let entry := {| info := i; timestamp := clock w'; ttl := ttlFor i |} in
      let m := <[instanceID := entry]> (cache c) in
      let m' :=
        if (100 <? size m)%nat then cleanupOldEntriesLocked (clock w') m
        else m in
      (Ok i, {| cache := m'; provider := provider c |}, w')
  end.

Definition get (c : instanceCache) (ctx : Context) (instanceID : string)
    (w : World) : result InstanceInfo * instanceCache * World :=
  match cache c !! instanceID with
  | Some entry =>
      if negb (isExpired (clock w) entry) then (Ok (info entry), c, w)
      else fetchAndStore c ctx instanceID w
  | None => fetchAndStore c ctx instanceID w
  end.

Definition invalidate (c : instanceCache) (instanceID : string)
  : instanceCache :=
  {| cache := delete instanceID (cache c); provider := provider c |}.

Definition clear (c : instanceCache) : instanceCache :=
  {| cache := ∅; provider := provider c |}.

End Provider.

(** ** Observations on caches *)

(** The entry that [get] serves for [id] when the clock reads [now]:
    the one in the map, unless it is expired. *)
Definition freshEntry (c : instanceCache) (id : string) (now : Time)
  : option cacheEntry :=
  match cache c !! id with
  | Some entry => if isExpired now entry then None else Some entry
  | None => None
  end.

(** Every entry carries the TTL of its class. *)
Definition ttlByClass (m : gmap string cacheEntry) : Prop :=
  forall k e, m !! k = Some e -> ttl e = ttlFor (info e).

(** ** Observations on traces *)

(** The calls of [httpClient.Do] among some events. *)
Fixpoint attempts (evs : list Event) : nat :=
  match evs with
  | [] => O
  | EvDo _ _ :: evs' => S (attempts evs')
  | EvSleep _ :: evs' => attempts evs'
  end.

(** The durations slept, in order. *)
Fixpoint sleeps (evs : list Event) : list Duration :=
  match evs with
  | [] => []
  | EvDo _ _ :: evs' => sleeps evs'
  | EvSleep d :: evs' => d :: sleeps evs'
  end.

(** The events that happened between the worlds [w] and [w']. *)
Definition since (w w' : World) : list Event :=
  drop (length (trace w)) (trace w').

(** The outcomes after which [Request] tries again while attempts
    remain. *)
Definition retryable (o : Outcome) : bool :=
  match o with
  | Failed _ => true
  | Responded r => 500 <=? StatusCode r
  end.

(** What [Request] returns for the outcome of its last attempt. *)
Definition returned (o : Outcome) : option Response * option error :=
  match o with
  | Failed e => (None, Some e)
  | Responded r => (Some r, None)
  end.

(** The retry policy in the words of the design document: attempt [k]
    of at most 3 is final when its outcome is not retryable or [k] is
    3; otherwise the client sleeps [k] seconds and makes attempt
    [k + 1] with the same request. *)
Inductive RetryPolicy (ctx : Context) (req : HttpRequest)
  : nat -> World -> option Response * option error -> World -> Prop :=
| attempt_final k w o w1 :
    Do ctx req w = (o, w1) ->
    retryable o = false \/ k = 3%nat ->
    RetryPolicy ctx req k w (returned o) w1
| attempt_retry k w o w1 res w' :
    Do ctx req w = (o, w1) ->
    retryable o = true -> (k < 3)%nat ->
    RetryPolicy ctx req (S k) (Sleep (Z.of_nat k * Second) w1) res w' ->
    RetryPolicy ctx req k w res w'.


(** ** Sample data *)

Definition noRequestError : string -> string -> option string :=
  fun _ _ => None.

Definition sampleInstance (status : string) : Instance :=
  {| InstName := "test-node"; ID := "instance-1"; UID := "";
     Type_ := "kubernetes=worker"; Zone := "zone-a";
     Status := status; State := "POWERED_ON"; Owned := true;
     Metadata :=
       {| IP := "10.0.1.100"; Flavor := "v2g-memory-4-8";
          Cluster := {| ClusterID := "d73c6df2"; ClusterZone := "zone-a";
                        ClusterTenant := "region-1" |};
          Resources := {| Cores := 4; Memory := 8192; Volumes := 1 |} |} |}.

(** A stand-in for the JSON decoder: the empty body is malformed, any
    other body is the status of a running instance. *)
Definition sampleDecode (body : string) : string + Instance :=
  if String.eqb body "" then inl "EOF" else inr (sampleInstance body).

Definition refused : Exchange :=
  {| outcome := Failed (ErrTransport "connection refused"); elapsed := 0 |}.

Definition answer (code : Z) (body : string) : Exchange :=
  {| outcome := Responded {| StatusCode := code; Body := body |};
     elapsed := 1000000 |}.

(** A remote end that answers the [k]-th round trip with the [k]-th
    exchange of a script, and refuses the connection afterwards. *)
Definition scripted (script : list Exchange) : nat -> HttpRequest -> Exchange :=
  fun k _ => nth k script refused.

Definition worldAt (t : Time) (script : list Exchange) : World :=
  {| clock := t; rounds := O; remote := scripted script; trace := [] |}.

Definition startWorld (script : list Exchange) : World := worldAt 0 script.

Definition sampleProvider : VCloudProvider :=
  {| clusterName := "test-cluster";
     clusterID := "d73c6df2-f7fe-4f7c-bf70-9f94cce26430";
     mgmtURL := "https://api.vcloud.example.com";
     providerToken := "test-token" |}.

Definition background : Context := {| doneAt := None |}.

Definition emptyCache : instanceCache := newInstanceCache sampleProvider.

(** An entry for a running instance fetched at time [t]. *)
Definition sampleEntry (t : Time) : cacheEntry :=
  {| info := {| Exists := true; Shutdown := false;
                InfoMetadata := None; RawInstance := None |};
     timestamp := t; ttl := instanceCacheTTL |}.

(** A cache that holds one entry, for "i-1", fetched at time 0. *)
Definition warmCache : instanceCache :=
  {| cache := {["i-1" := sampleEntry 0]}; provider := sampleProvider |}.

(** A cache of [n] entries, all fetched at time [t]. *)
Definition filledCache (n : nat) (t : Time) : instanceCache :=
  {| cache :=
       list_to_map
         (map (fun k => (String (ascii_of_nat k) "", sampleEntry t)) (seq 0 n));
     provider := sampleProvider |}.

(** ** Results of the layers above the cache *)

(** The result of a Go function whose errors are of kind [E], or a
    nil-pointer panic. *)
Inductive outcomeOf (E A : Type) :=
| Done (a : A)
| Fail (e : E)
| Crash.
Arguments Done {E A} a.
Arguments Fail {E A} e.
Arguments Crash {E A}.

(** ** The node operations (instances.go) *)

Inductive nodeError :=
| ErrEmptyProviderID (node : string)
    (* "provider ID is empty for node %s" *)
| InstanceNotFound
    (* cloudprovider.InstanceNotFound *)
| ErrLookup (e : error).
    (* the error of [cache.get], returned as it is *)

Record VCloudInstances := {
  instProvider : VCloudProvider;
  instCache : instanceCache
}.

Module InstancesV2.
Section Instances.

Variable newRequestError : string -> string -> option string.
Variable decodeInstance : string -> string + Instance.

Definition NewVCloudInstances (p : VCloudProvider) : VCloudInstances :=
  {| instProvider := p; instCache := newInstanceCache p |}.

(** The three operations return what they leave of the cache next to
    their result. *)
Definition InstanceExists (i : VCloudInstances) (ctx : Context) (node : Node)
    (w : World) : outcomeOf nodeError bool * VCloudInstances * World :=
  let providerID := getProviderID node in
  if String.eqb providerID "" then
    (Fail (ErrEmptyProviderID (Name node)), i, w)
  else
    match get newRequestError decodeInstance (instCache i) ctx providerID w with
    | (Err err, c, w') =>
        (Fail (ErrLookup err), {| instProvider := instProvider i; instCache := c |}, w')
    | (NilDeref, c, w') =>
        (Crash, {| instProvider := instProvider i; instCache := c |}, w')
    | (Ok inf, c, w') =>
        (Done (Exists inf), {| instProvider := instProvider i; instCache := c |}, w')
    end.

Definition InstanceShutdown (i : VCloudInstances) (ctx : Context) (node : Node)
    (w : World) : outcomeOf nodeError bool * VCloudInstances * World :=
  let providerID := getProviderID node in
  if String.eqb providerID "" then
    (Fail (ErrEmptyProviderID (Name node)), i, w)
  else
    match get newRequestError decodeInstance (instCache i) ctx providerID w with
    | (Err err, c, w') =>
        (Fail (ErrLookup err), {| instProvider := instProvider i; instCache := c |}, w')
    | (NilDeref, c, w') =>
        (Crash, {| instProvider := instProvider i; instCache := c |}, w')
    | (Ok inf, c, w') =>
        if negb (Exists inf) then
          (Fail InstanceNotFound,
           {| instProvider := instProvider i; instCache := c |}, w')
        else
          (Done (Shutdown inf),
           {| instProvider := instProvider i; instCache := c |}, w')
    end.

(** The metadata is returned as the pointer the record holds, nil or
    not. *)
Definition InstanceMetadata (i : VCloudInstances) (ctx : Context) (node : Node)
    (w : World)
  : outcomeOf nodeError (option InstanceMetadata) * VCloudInstances * World :=
  let providerID := getProviderID node in
  if String.eqb providerID "" then
    (Fail (ErrEmptyProviderID (Name node)), i, w)
  else
    match get newRequestError decodeInstance (instCache i) ctx providerID w with
    | (Err err, c, w') =>
        (Fail (ErrLookup err), {| instProvider := instProvider i; instCache := c |}, w')
    | (NilDeref, c, w') =>
        (Crash, {| instProvider := instProvider i; instCache := c |}, w')
    | (Ok inf, c, w') =>
        if negb (Exists inf) then
          (Fail InstanceNotFound,
           {| instProvider := instProvider i; instCache := c |}, w')
        else
          (Done (InfoMetadata inf),
           {| instProvider := instProvider i; instCache := c |}, w')
    end.

End Instances.
End InstancesV2.

(** A record as [GetInstanceInfo] builds it for the identifier [id]:
    either the absent one, or one that exists and carries the raw
    instance and the metadata derived from it. *)
Definition builtFor (id : string) (i : InstanceInfo) : Prop :=
  i = absent \/
  exists inst,
    Status inst <> "terminated" /\
    i = {| Exists := true;
           Shutdown := isInstanceShutdown (State inst);
           InfoMetadata :=
             Some {| ProviderID := id;
                     InstanceType := Flavor (Metadata inst);
                     NodeAddresses :=
                       [{| AddrType := NodeInternalIP;
                           Address := IP (Metadata inst) |}];
                     MetaZone := Zone inst;
                     Region := ClusterTenant (Cluster (Metadata inst));
                     AdditionalLabels :=
                       <["k8s.io.infra.vnetwork.dev/instance-type" :=
                           Flavor (Metadata inst)]>
                       (<["k8s.io.infra.vnetwork.dev/cluster-id" :=
                           ClusterID (Cluster (Metadata inst))]> ∅) |};
           RawInstance := Some inst |}.

(** Every entry holds a record built for its own key. *)
Definition builtEntries (m : gmap string cacheEntry) : Prop :=
  forall k e, m !! k = Some e -> builtFor k (info e).

(** ** Configuration (config.go, vcloud.go) *)

Record VCloudConfig := {
  CfgClusterID : string;
  CfgClusterName : string;
  CfgMgmtURL : string;
  CfgProviderToken : string
}.

(** What a [bufio.Scanner] reads off an [io.Reader]: the lines it
    yields, and the error it ends with, if any.  The scan ends with
    an error when the reader fails, or at a line of 64 KiB or more,
    which is not yielded, nor is any line after it. *)
Record Reader := {
  scanned : list string;
  scanErr : option string
}.

Definition HasPrefix (s prefix : string) : bool :=
  match GoStrings.CutPrefix s prefix with Some _ => true | None => false end.

Definition HasSuffix (s suffix : string) : bool :=
  (String.length suffix <=? String.length s)%nat &&
  String.eqb
    (String.substring (String.length s - String.length suffix)
       (String.length suffix) s)
    suffix.

(** [strings.SplitN(s, sep, 2)]: at most one cut. *)
Definition SplitN2 (s sep : string) : list string := GoStrings.splitN 1 s sep.

Definition HasClusterID (p : VCloudProvider) : bool :=
  negb (String.eqb (clusterID p) "").

Section Config.

(** Library behaviour: [strings.TrimSpace], [strings.EqualFold], and
    the errors, if any, of [uuid.Parse] and [url.Parse]. *)
Variable TrimSpace : string -> string.
Variable EqualFold : string -> string -> bool.
Variable uuidParseError : string -> option string.
Variable urlParseError : string -> option string.

(** One turn of the loop of [readConfig], on the configuration read
    so far and the flag [inVCloudSection]. *)
Definition configLine (st : VCloudConfig * bool) (text : string)
  : VCloudConfig * bool :=
  let '(cfg, inVCloudSection) := st in
  let line := TrimSpace text in
  if String.eqb line "" || HasPrefix line "#" || HasPrefix line ";" then st
  else if HasPrefix line "[" && HasSuffix line "]" then
    let sectionName :=
      TrimSpace (String.substring 1 (String.length line - 1 - 1) line) in
    (cfg, EqualFold sectionName "vCloud")
  else if inVCloudSection && GoStrings.Contains line "=" then
    let parts := SplitN2 line "=" in
    if negb (Nat.eqb (length parts) 2) then st
    else
      let key := TrimSpace (nth 0 parts "") in
      let value := TrimSpace (nth 1 parts "") in
      if String.eqb key "CLUSTER_ID" then
        ({| CfgClusterID := value; CfgClusterName := CfgClusterName cfg;
            CfgMgmtURL := CfgMgmtURL cfg;
            CfgProviderToken := CfgProviderToken cfg |}, inVCloudSection)
      else if String.eqb key "CLUSTER_NAME" then
        ({| CfgClusterID := CfgClusterID cfg; CfgClusterName := value;
            CfgMgmtURL := CfgMgmtURL cfg;
            CfgProviderToken := CfgProviderToken cfg |}, inVCloudSection)
      else if String.eqb key "MGMT_URL" then
        ({| CfgClusterID := CfgClusterID cfg;
            CfgClusterName := CfgClusterName cfg; CfgMgmtURL := value;
            CfgProviderToken := CfgProviderToken cfg |}, inVCloudSection)
      else if String.eqb key "PROVIDER_TOKEN" then
        ({| CfgClusterID := CfgClusterID cfg;
            CfgClusterName := CfgClusterName cfg;
            CfgMgmtURL := CfgMgmtURL cfg; CfgProviderToken := value |},
         inVCloudSection)
      else st
  else st.

Definition emptyConfig : VCloudConfig :=
  {| CfgClusterID := ""; CfgClusterName := ""; CfgMgmtURL := "";
     CfgProviderToken := "" |}.

(** The loop of [readConfig] over the lines scanned. *)
Definition scanConfig (lines : list string) : VCloudConfig * bool :=
  fold_left configLine lines (emptyConfig, false).

Definition readConfig (config : option Reader) : string + VCloudConfig :=
  match config with
  | None => inl "no vcloud config provided"
  | Some r =>
      let '(cfg, _) := scanConfig (scanned r) in
      match scanErr r with
      | Some err => inl ("error reading config: " +:+ err)
      | None => inr cfg
      end
  end.

(** [validateConfig]: the message of the error, or [None] for nil. *)
Definition validateConfig (cfg : option VCloudConfig) : option string :=
  match cfg with
  | None => Some "config is nil"
  | Some cfg =>
      if String.eqb (CfgClusterID cfg) "" then Some "CLUSTER_ID is required"
      else if String.eqb (CfgClusterName cfg) "" then
        Some "CLUSTER_NAME is required"
      else if String.eqb (CfgMgmtURL cfg) "" then Some "MGMT_URL is required"
      else if String.eqb (CfgProviderToken cfg) "" then
        Some "PROVIDER_TOKEN is required"
      else
        match uuidParseError (CfgClusterID cfg) with
        | Some err => Some ("CLUSTER_ID must be a valid UUID: " +:+ err)
        | None =>
            match urlParseError (CfgMgmtURL cfg) with
            | Some err => Some ("MGMT_URL must be a valid URL: " +:+ err)
            | None => None
            end
        end
  end.

(** [NewVCloudProvider]: the provider and the instances interface it
    holds, with its new cache. *)
Definition NewVCloudProvider (config : option Reader)
  : string + (VCloudProvider * VCloudInstances) :=
  match readConfig config with
  | inl err => inl ("failed to read vcloud config: " +:+ err)
  | inr cfg =>
      match validateConfig (Some cfg) with
      | Some err => inl ("invalid vcloud config: " +:+ err)
      | None =>
          let provider :=
            {| clusterName := CfgClusterName cfg;
               clusterID := CfgClusterID cfg;
               mgmtURL := CfgMgmtURL cfg;
               providerToken := CfgProviderToken cfg |} in
          inr (provider, InstancesV2.NewVCloudInstances provider)
      end
  end.

End Config.

(** ** Load balancers (loadbalancer.go)

    Of the operations on load balancers, those that send no body are
    embedded: [GetLoadBalancer] and [EnsureLoadBalancerDeleted], next
    to the pure [GetLoadBalancerName] and [buildLoadBalancerRequest].
    [EnsureLoadBalancer] and [UpdateLoadBalancer] hand one reader of
    their body to every attempt of [Request]; what a retry then sends
    depends on how much of it an earlier attempt has read, which is
    not part of this world. *)

(** [strconv.Itoa], as [fmt] prints an integer with the verb d. *)
Definition digitChar (d : Z) : ascii := ascii_of_nat (48 + Z.to_nat d).

Fixpoint utoa (fuel : nat) (n : Z) (acc : string) : string :=
  match fuel with
  | O => acc
  | S fuel' =>
      let acc' := String (digitChar (n mod 10)) acc in
      if n <? 10 then acc' else utoa fuel' (n / 10) acc'
  end.

(** A number has no more decimal digits than binary ones. *)
Definition Itoa (n : Z) : string :=
  if n <? 0 then String "-" (utoa (Z.to_nat (Z.log2 (- n)) + 1) (- n) "")
  else utoa (Z.to_nat (Z.log2 n) + 1) n "".

(** [intstr.IntOrString] and its method [String]. *)
Inductive IntOrString :=
| FromInt (n : Z)
| FromString (s : string).

Definition IntOrString_String (v : IntOrString) : string :=
  match v with
  | FromString s => s
  | FromInt n => Itoa n
  end.

(** The fields of [v1.ServicePort], [v1.Service] and [v1.Node] that
    the load balancer reads. *)
Record ServicePort := {
  PortName : string;
  Port : Z;
  TargetPort : IntOrString;
  Protocol : string;
  NodePort : Z;
  AppProtocol : option string     (* a pointer, nil when not set *)
}.

Record Service := {
  SvcName : string;
  SvcNamespace : string;
  SvcUID : string;
  SvcType : string;
  SvcPorts : list ServicePort
}.

Record NodeStatus := {
  Addresses : list NodeAddress
}.

Record LoadBalancerPort := {
  LbPortName : string;
  LbPort : Z;
  LbTargetPort : string;
  LbProtocol : string;
  LbNodePort : Z;
  LbAppProtocol : string
}.

Record LoadBalancerRequest := {
  ReqName : string;
  ReqPorts : list LoadBalancerPort;
  ReqNodes : list string;
  ReqNamespace : string;
  ReqType : string
}.

(** [LoadBalancerResponse]: the status and the IP of each ingress. *)
Record LoadBalancerResponse := {
  LbStatus : Z;
  LbIngress : list string
}.

(** [v1.LoadBalancerIngress] and [v1.LoadBalancerStatus]. *)
Record LoadBalancerIngress := {
  IngressIP : string
}.

Definition LoadBalancerStatus := list LoadBalancerIngress.

Inductive lbError :=
| ErrGetLoadBalancer (name : string) (cause : error)
    (* "failed to get load balancer %s: %v" *)
| ErrDeleteLoadBalancer (cause : error)
    (* "failed to delete load balancer: %v" *)
| ErrLB (e : error).
    (* an unexpected status or a body that does not decode *)

(** The name is made from the cluster name of the provider; the
    arguments [ctx] and [clusterName] of the method are not read. *)
Definition GetLoadBalancerName (p : VCloudProvider) (service : Service)
  : string :=
  let uid := GoStrings.Split (SvcUID service) "-" in
  let lbName := clusterName p +:+ "-ingress-" +:+ nth 0 uid "" in
  lbName +:+ "-" +:+ SvcName service.

(** The inner loop of [buildLoadBalancerRequest]: the first internal
    address is appended and the loop left. *)
Fixpoint appendInternalIP (addrs : list NodeAddress) (nodeIPs : list string)
  : list string :=
  match addrs with
  | [] => nodeIPs
  | addr :: rest =>
      match AddrType addr with
      | NodeInternalIP => nodeIPs ++ [Address addr]
      | _ => appendInternalIP rest nodeIPs
      end
  end.

(** The port built for one service port. *)
Definition buildPort (svcPort : ServicePort) : LoadBalancerPort :=
  let name :=
    if String.eqb (PortName svcPort) "" then "port-" +:+ Itoa (Port svcPort)
    else PortName svcPort in
  let appProtocol :=
    match AppProtocol svcPort with
    | Some a => a
    | None => ""
    end in
  {| LbPortName := name; LbPort := Port svcPort;
     LbTargetPort := IntOrString_String (TargetPort svcPort);
     LbProtocol := Protocol svcPort; LbNodePort := NodePort svcPort;
     LbAppProtocol := appProtocol |}.

Definition buildLoadBalancerRequest (name : string) (service : Service)
    (nodes : list NodeStatus) : LoadBalancerRequest :=
  let nodeIPs :=
    fold_left (fun nodeIPs node => appendInternalIP (Addresses node) nodeIPs)
      nodes [] in
  let ports :=
    fold_left (fun ports svcPort => ports ++ [buildPort svcPort])
      (SvcPorts service) [] in
  {| ReqName := name; ReqPorts := ports; ReqNodes := nodeIPs;
     ReqNamespace := SvcNamespace service; ReqType := SvcType service |}.

Section LoadBalancer.

Variable newRequestError : string -> string -> option string.

(** The decoding by [encoding/json] of a body into a
    [LoadBalancerResponse]. *)
Variable decodeLoadBalancer : string -> string + LoadBalancerResponse.

(** [GetLoadBalancer]: the status (nil when there is none) and the
    flag [exists]. *)
Definition GetLoadBalancer (p : VCloudProvider) (ctx : Context)
    (service : Service) (w : World)
  : outcomeOf lbError (option LoadBalancerStatus * bool) * World :=
  let lbName := GetLoadBalancerName p service in
  let path := "/ingresses/" +:+ lbName in
  let '((resp, err), w') := Request newRequestError p ctx "GET" path None w in
  match err with
  | Some e => (Fail (ErrGetLoadBalancer lbName e), w')
  | None =>
      match resp with
      | None => (Crash, w')
      | Some resp =>
          if StatusCode resp =? 404 then (Done (None, false), w')
          else if negb (StatusCode resp =? 200) then
            (Fail (ErrLB (ErrUnexpectedStatus (StatusCode resp) (Body resp))),
             w')
          else
            match decodeLoadBalancer (Body resp) with
            | inl cause => (Fail (ErrLB (ErrDecode cause)), w')
            | inr lbResp =>
                let status :=
                  fold_left
                    (fun status ip => status ++ [{| IngressIP := ip |}])
                    (LbIngress lbResp) [] in
                (Done (Some status, true), w')
            end
      end
  end.

Definition EnsureLoadBalancerDeleted (p : VCloudProvider) (ctx : Context)
    (service : Service) (w : World) : outcomeOf lbError unit * World :=
  let lbName := GetLoadBalancerName p service in
  let path := "/ingresses/" +:+ lbName in
  let '((resp, err), w') :=
    Request newRequestError p ctx "DELETE" path None w in
  match err with
  | Some e => (Fail (ErrDeleteLoadBalancer e), w')
  | None =>
      match resp with
      | None => (Crash, w')
      | Some resp =>
          if StatusCode resp =? 404 then (Done tt, w')
          else if negb (StatusCode resp =? 200) then
            (Fail (ErrLB (ErrUnexpectedStatus (StatusCode resp) (Body resp))),
             w')
          else (Done tt, w')
      end
  end.

End LoadBalancer.

(** ** Observations on configuration lines and node addresses *)

(** A trimmed line that [readConfig] skips: empty, or a comment. *)
Definition isComment (line : string) : bool :=
  String.eqb line "" || HasPrefix line "#" || HasPrefix line ";".

(** A trimmed line that [readConfig] takes for a section header. *)
Definition isHeader (line : string) : bool :=
  HasPrefix line "[" && HasSuffix line "]".


Definition isInternalIP (addr : NodeAddress) : bool :=
  match AddrType addr with
  | NodeInternalIP => true
  | _ => false
  end.

(** ** More sample data *)

(** Stand-ins for [strings.TrimSpace] and [strings.EqualFold] on the
    sample files: spaces are trimmed, and names are compared as they
    are. *)
Fixpoint trimLeft (s : string) : string :=
  match s with
  | String " " s' => trimLeft s'
  | _ => s
  end.

Fixpoint reverse (s acc : string) : string :=
  match s with
  | EmptyString => acc
  | String c s' => reverse s' (String c acc)
  end.

Definition sampleTrim (s : string) : string :=
  reverse (trimLeft (reverse (trimLeft s) "")) "".

Definition sampleFold (a b : string) : bool := String.eqb a b.

Definition noParseError : string -> option string := fun _ => None.

Definition sampleFile : Reader :=
  {| scanned :=
       ["# provider settings";
        "[vCloud]";
        "CLUSTER_ID = d73c6df2-f7fe-4f7c-bf70-9f94cce26430";
        "CLUSTER_NAME = test-cluster";
        "MGMT_URL = https://api.vcloud.example.com/?a=b";
        "PROVIDER_TOKEN = test-token"];
     scanErr := None |}.

Definition sampleService : Service :=
  {| SvcName := "test-service"; SvcNamespace := "default";
     SvcUID := "abc123-def456-ghi789"; SvcType := "LoadBalancer";
     SvcPorts :=
       [{| PortName := "http"; Port := 80; TargetPort := FromInt 8080;
           Protocol := "TCP"; NodePort := 30080; AppProtocol := Some "http" |};
        {| PortName := ""; Port := 443; TargetPort := FromInt 8443;
           Protocol := "TCP"; NodePort := 30443; AppProtocol := None |}] |}.

Definition sampleNodes : list NodeStatus :=
  [{| Addresses :=
        [{| AddrType := NodeExternalIP; Address := "1.2.3.4" |};
         {| AddrType := NodeInternalIP; Address := "10.0.1.100" |};
         {| AddrType := NodeInternalIP; Address := "10.0.9.9" |}] |};
   {| Addresses := [{| AddrType := NodeHostName; Address := "node-b" |}] |};
   {| Addresses :=
        [{| AddrType := NodeInternalIP; Address := "10.0.1.101" |}] |}].

Definition sampleNode : Node :=
  {| Name := "node-1"; SpecProviderID := "vcloud://i-1" |}.

Definition sampleDecodeLB (body : string) : string + LoadBalancerResponse :=
  if String.eqb body "" then inl "EOF"
  else inr {| LbStatus := 200; LbIngress := [body] |}.

(** * Properties *)

(** ** Strings *)

Module GoStringsFacts.
Import GoStrings.

Lemma app_nil_l (b : string) : "" +:+ b = b.
Proof. reflexivity. Qed.

Lemma app_cons (c : Ascii.ascii) (a b : string) :
  String c a +:+ b = String c (a +:+ b).
Proof. reflexivity. Qed.

Lemma length_app (a b : string) :
  String.length (a +:+ b) = (String.length a + String.length b)%nat.
Proof.
  induction a as [|c a IH]; [reflexivity|].
  rewrite app_cons. simpl. now rewrite IH.
Qed.

Lemma app_assoc (a b c : string) : (a +:+ b) +:+ c = a +:+ b +:+ c.
Proof.
  induction a as [|x a IH]; [reflexivity|].
  rewrite !app_cons. now rewrite IH.
Qed.

Lemma app_nil_r (a : string) : a +:+ "" = a.
Proof.
  induction a as [|x a IH]; [reflexivity|].
  rewrite app_cons. now rewrite IH.
Qed.

Lemma CutPrefix_Some (s prefix rest : string) :
  CutPrefix s prefix = Some rest <-> s = prefix +:+ rest.
Proof.
  revert s. induction prefix as [|p prefix IH]; intros s.
  - rewrite app_nil_l. simpl. split; congruence.
  - rewrite app_cons. simpl.
    destruct s as [|c s]; [split; discriminate|].
    destruct (Ascii.eqb_spec c p) as [->|Hne].
    + rewrite IH. split; congruence.
    + split; [discriminate | congruence].
Qed.

Lemma CutPrefix_app (sep rest : string) :
  CutPrefix (sep +:+ rest) sep = Some rest.
Proof. now apply CutPrefix_Some. Qed.

(** Past a prefix that is at least as long as [sep], what
    [CutPrefix] leaves still ends with the whole tail. *)
Lemma CutPrefix_tail (sep u t rest : string) :
  (String.length sep <= String.length u)%nat ->
  CutPrefix (u +:+ t) sep = Some rest ->
  exists x, rest = x +:+ t.
Proof.
  revert u. induction sep as [|p sep IH]; intros u Hlen.
  - simpl. intros [= <-]. now exists u.
  - destruct u as [|c u]; simpl in Hlen; [lia|].
    rewrite app_cons. simpl.
    destruct (Ascii.eqb c p); [|discriminate].
    apply IH. lia.
Qed.

(** [Cut] splits at an instance of [sep]. *)
Lemma Cut_Some (s sep a b : string) :
  Cut s sep = Some (a, b) -> s = a +:+ sep +:+ b.
Proof.
  revert a. induction s as [|c s IH]; intros a; simpl.
  - destruct (CutPrefix "" sep) as [r|] eqn:E; [|discriminate].
    intros [= <- <-]. now apply CutPrefix_Some in E.
  - destruct (CutPrefix (String c s) sep) as [r|] eqn:E.
    + intros [= <- <-]. now apply CutPrefix_Some in E.
    + destruct (Cut s sep) as [[a' b']|]; [|discriminate].
      intros [= <- <-]. rewrite app_cons. f_equal. now apply IH.
Qed.

(** [Cut] finds an instance of [sep] whenever there is one, and the
    one it finds is not to the right of any other. *)
Lemma Cut_app (sep a t : string) :
  exists a' x, Cut (a +:+ sep +:+ t) sep = Some (a', x +:+ t).
Proof.
  induction a as [|c a IH].
  - exists "", "". rewrite !app_nil_l.
    destruct (sep +:+ t) eqn:E; simpl; rewrite <- ?E, CutPrefix_app;
      reflexivity.
  - rewrite app_cons. simpl Cut.
    destruct (CutPrefix (String c (a +:+ sep +:+ t)) sep) as [r|] eqn:E.
    + rewrite <- app_cons, <- app_assoc in E.
      apply CutPrefix_tail in E as [x ->].
      * now exists "", x.
      * rewrite length_app. lia.
    + destruct IH as (a' & x & ->). now exists (String c a'), x.
Qed.

Lemma Cut_None (s sep : string) :
  Cut s sep = None -> forall a b, s <> a +:+ sep +:+ b.
Proof.
  intros HN a b ->. destruct (Cut_app sep a b) as (a' & x & E). congruence.
Qed.

Lemma Contains_spec (s sep : string) :
  Contains s sep = true <-> exists a b, s = a +:+ sep +:+ b.
Proof.
  unfold Contains. split.
  - destruct (Cut s sep) as [[a b]|] eqn:E; [|discriminate].
    intros _. exists a, b. now apply Cut_Some.
  - intros (a & b & ->). destruct (Cut_app sep a b) as (a' & x & ->).
    reflexivity.
Qed.

Lemma length_sep_pos (sep : string) :
  sep <> "" -> (1 <= String.length sep)%nat.
Proof. destruct sep; simpl; [congruence | lia]. Qed.

Lemma Cut_empty (sep : string) : sep <> "" -> Cut "" sep = None.
Proof. destruct sep; [congruence | reflexivity]. Qed.

(** The text before the instance that [Cut] finds holds no
    instance of its own: [Cut] finds the leftmost one. *)
Lemma Cut_before (s sep a b : string) :
  sep <> "" -> Cut s sep = Some (a, b) -> Cut a sep = None.
Proof.
  intros Hsep HC. destruct (Cut a sep) as [[u v]|] eqn:E; [|reflexivity].
  apply Cut_Some in E. pose proof (Cut_Some _ _ _ _ HC) as Hs.
  subst a. rewrite !app_assoc in Hs.
  destruct (Cut_app sep u (v +:+ sep +:+ b)) as (a' & x & HC').
  rewrite <- Hs, HC in HC'. injection HC' as _ Hb.
  apply (f_equal String.length) in Hb. rewrite !length_app in Hb.
  apply length_sep_pos in Hsep. lia.
Qed.

Lemma splitN_length (n : nat) (s sep : string) :
  (1 <= length (splitN n s sep))%nat.
Proof.
  destruct n; simpl; [lia|]. destruct (Cut s sep) as [[a b]|]; simpl; lia.
Qed.

Lemma Split_none (s sep : string) : Cut s sep = None -> Split s sep = [s].
Proof.
  unfold Split. intros E. destruct (String.length s); simpl; [reflexivity|].
  now rewrite E.
Qed.

(** With enough cuts allowed, two parts come out exactly when the
    text after the first instance holds no further one. *)
Lemma splitN_two (n : nat) (s sep a b : string) :
  sep <> "" -> (String.length s <= n)%nat ->
  splitN n s sep = [a; b] ->
  Cut s sep = Some (a, b) /\ Cut b sep = None.
Proof.
  intros Hsep Hn. destruct n as [|n]; simpl; [discriminate|].
  destruct (Cut s sep) as [[a' r]|] eqn:E; [|discriminate].
  intros [= -> Hr]. pose proof (Cut_Some _ _ _ _ E) as Hs.
  apply (f_equal String.length) in Hs. rewrite !length_app in Hs.
  pose proof (length_sep_pos _ Hsep).
  destruct n as [|n]; simpl in Hr.
  - injection Hr as ->. split; [reflexivity|].
    destruct b; [now apply Cut_empty | simpl in Hs; lia].
  - destruct (Cut r sep) as [[x y]|] eqn:E'.
    + injection Hr as _ Hr. pose proof (splitN_length n y sep).
      destruct (splitN n y sep); simpl in *; [lia | discriminate].
    + injection Hr as ->. split; [reflexivity | assumption].
Qed.

Lemma Split_once (s sep a b : string) :
  sep <> "" -> Cut s sep = Some (a, b) -> Cut b sep = None ->
  Split s sep = [a; b].
Proof.
  intros Hsep E E'. unfold Split.
  pose proof (Cut_Some _ _ _ _ E) as Hs.
  apply (f_equal String.length) in Hs. rewrite !length_app in Hs.
  pose proof (length_sep_pos _ Hsep).
  destruct (String.length s) as [|n]; [lia|]. simpl. rewrite E.
  f_equal. destruct n; simpl; [reflexivity | now rewrite E'].
Qed.

Lemma Split_twice (s sep : string) :
  sep <> "" -> twice s sep -> (2 < length (Split s sep))%nat.
Proof.
  intros Hsep (a & b & c & Hs). unfold Split.
  pose proof (f_equal String.length Hs) as Hl. rewrite !length_app in Hl.
  pose proof (length_sep_pos _ Hsep).
  destruct (Cut_app sep a (b +:+ sep +:+ c)) as (a' & x & E).
  rewrite <- Hs in E.
  destruct (Cut_app sep (x +:+ b) c) as (b' & y & E').
  rewrite app_assoc in E'.
  destruct (String.length s) as [|[|n]]; [lia | lia |].
  simpl. rewrite E. rewrite E'. simpl.
  pose proof (splitN_length n (y +:+ c) sep). lia.
Qed.

Lemma twice_Cut (s sep a b x y : string) :
  Cut s sep = Some (a, b) -> Cut b sep = Some (x, y) -> twice s sep.
Proof.
  intros E E'. apply Cut_Some in E, E'. exists a, x, y. now subst.
Qed.

End GoStringsFacts.

(** ** Node identity *)

Section NodeIdentity.
Import GoStrings GoStringsFacts.

Lemma sep_nonempty : "://" <> "".
Proof. discriminate. Qed.

Example Split_three :
  Split "vcloud://a://b" "://" = ["vcloud"; "a"; "b"].
Proof. reflexivity. Qed.

Example Split_no_separator : Split "instance-456" "://" = ["instance-456"].
Proof. reflexivity. Qed.

Example Split_scheme_only : Split "vcloud://" "://" = ["vcloud"; ""].
Proof. reflexivity. Qed.

(** The three paths of [getProviderID], by what [Split] yields. *)
Lemma getProviderID_name (node : Node) :
  SpecProviderID node = "" -> getProviderID node = Name node.
Proof. unfold getProviderID. now intros ->. Qed.

Lemma getProviderID_strip (node : Node) (a b : string) :
  SpecProviderID node <> "" ->
  Split (SpecProviderID node) "://" = [a; b] ->
  getProviderID node = b.
Proof.
  unfold getProviderID. intros Hne ->.
  apply String.eqb_neq in Hne. now rewrite Hne.
Qed.

Lemma getProviderID_raw (node : Node) :
  length (Split (SpecProviderID node) "://") <> 2%nat ->
  getProviderID node = SpecProviderID node \/
  (SpecProviderID node = "" /\ getProviderID node = Name node).
Proof.
  unfold getProviderID. intros Hlen.
  destruct (String.eqb_spec (SpecProviderID node) ""); simpl; [now right|].
  apply Nat.eqb_neq in Hlen. rewrite Hlen. now left.
Qed.

(** When the result is not the provider ID itself, it is the second
    of exactly two parts. *)
Lemma getProviderID_stripped (node : Node) :
  SpecProviderID node <> "" ->
  getProviderID node <> SpecProviderID node ->
  exists a b, Split (SpecProviderID node) "://" = [a; b] /\
              getProviderID node = b.
Proof.
  unfold getProviderID. intros Hne.
  apply String.eqb_neq in Hne. rewrite Hne. simpl.
  destruct (Nat.eqb_spec (length (Split (SpecProviderID node) "://")) 2)
    as [Hlen|]; [|congruence].
  intros _.
  destruct (Split (SpecProviderID node) "://") as [|a [|b [|c l]]];
    try discriminate.
  now exists a, b.
Qed.

(** No instance of "://" can begin inside [a] and end outside of it. *)
Lemma CutPrefix_straddle (c : ascii) (a b : string) :
  CutPrefix (String c a) "://" = None ->
  CutPrefix (String c a +:+ "://" +:+ b) "://" = None.
Proof.
  intros H. rewrite app_cons. simpl in *.
  destruct (Ascii.eqb c ":"%char); [|reflexivity].
  destruct a as [|d a]; [reflexivity|].
  rewrite app_cons. destruct (Ascii.eqb d "/"%char); [|reflexivity].
  destruct a as [|e a]; [reflexivity|].
  rewrite app_cons. destruct (Ascii.eqb e "/"%char); [discriminate|].
  reflexivity.
Qed.

Lemma Cut_cons (c : ascii) (s sp : string) :
  Cut (String c s) sp =
  match CutPrefix (String c s) sp with
  | Some after => Some ("", after)
  | None =>
      match Cut s sp with
      | Some (before, after) => Some (String c before, after)
      | None => None
      end
  end.
Proof. reflexivity. Qed.

(** So if [a] holds none, the first one of [a ++ "://" ++ b] is the
    one written out. *)
Lemma Cut_scheme (a b : string) :
  Cut a "://" = None -> Cut (a +:+ "://" +:+ b) "://" = Some (a, b).
Proof.
  induction a as [|c a IH]; [reflexivity|].
  rewrite Cut_cons.
  destruct (CutPrefix (String c a) "://") eqn:E; [discriminate|].
  destruct (Cut a "://") as [[? ?]|]; [discriminate|]. intros _.
  pose proof (CutPrefix_straddle c a b E) as E'.
  rewrite (app_cons c a) in *. rewrite Cut_cons, E', (IH eq_refl). reflexivity.
Qed.

End NodeIdentity.

Section NodeIdentityClaims.
Import GoStrings GoStringsFacts.

Lemma Contains_false (s sp : string) :
  Cut s sp = None <-> Contains s sp = false.
Proof. unfold Contains. destruct (Cut s sp); split; congruence. Qed.

(** A stripped provider ID is cut at its only "://". *)
Lemma getProviderID_stripped_once (node : Node) :
  SpecProviderID node <> "" ->
  getProviderID node <> SpecProviderID node ->
  exists a b,
    Cut (SpecProviderID node) "://" = Some (a, b) /\ Cut b "://" = None /\
    Cut a "://" = None /\ getProviderID node = b.
Proof.
  intros Hne Hstrip.
  destruct (getProviderID_stripped node Hne Hstrip) as (a & b & HS & Hb).
  apply splitN_two in HS as [HC HN];
    [|apply sep_nonempty | apply Nat.le_refl].
  exists a, b. repeat split; try assumption.
  eapply Cut_before; [apply sep_nonempty | exact HC].
Qed.

(** C8 as the design document has it fails: a provider ID that ends
    with its only "://" yields the empty string although the inputs
    are not empty. *)
Lemma getProviderID_empty_after_scheme :
  ~ (forall node : Node,
       getProviderID node = "" ->
       SpecProviderID node = "" /\ Name node = "").
Proof.
  intros H.
  destruct (H {| Name := "node-1"; SpecProviderID := "vcloud://" |}
              eq_refl) as [E _].
  discriminate E.
Qed.

(** C8 (amended): [getProviderID] is a total function to strings (it
    has no error result); it strips the scheme of
    "vcloud://instance-123", returns "instance-456" unchanged, and
    falls back to the node name "node-789" when the provider ID is
    empty; its result is empty exactly when both inputs are empty or
    nothing follows the only "://" of the provider ID. *)
Theorem getProviderID_fallback_order :
  (forall n, getProviderID
     {| Name := n; SpecProviderID := "vcloud://instance-123" |}
     = "instance-123") /\
  (forall n, getProviderID
     {| Name := n; SpecProviderID := "instance-456" |}
     = "instance-456") /\
  getProviderID {| Name := "node-789"; SpecProviderID := "" |}
    = "node-789" /\
  (forall node : Node,
     getProviderID node = "" <->
     (SpecProviderID node = "" /\ Name node = "") \/
     (exists scheme, SpecProviderID node = scheme +:+ "://" /\
                     Contains scheme "://" = false)).
Proof.
  split; [reflexivity|]. split; [reflexivity|]. split; [reflexivity|].
  intros node. split.
  - intros Hres.
    destruct (String.eqb_spec (SpecProviderID node) "") as [He|Hne].
    + left. split; [assumption|].
      now rewrite <- (getProviderID_name node He).
    + right.
      destruct (getProviderID_stripped_once node Hne)
        as (a & b & HC & _ & Ha & Hb); [congruence|].
      rewrite Hres in Hb. subst b. exists a. split.
      * apply Cut_Some in HC. now rewrite app_nil_r in HC.
      * now apply Contains_false.
  - intros [[He Hn]|(scheme & Hp & Hc)].
    + now rewrite (getProviderID_name node He).
    + apply Contains_false in Hc.
      assert (Hne : SpecProviderID node <> "").
      { rewrite Hp. intros E. apply (f_equal String.length) in E.
        rewrite length_app in E. simpl in E. lia. }
      apply (getProviderID_strip node scheme ""); [assumption|].
      apply Split_once; [apply sep_nonempty | | reflexivity].
      pose proof (Cut_scheme scheme "" Hc) as HC.
      rewrite app_nil_r in HC. now rewrite Hp.
Qed.

(** C10: a provider ID that holds "://" more than once is returned
    verbatim (so is "vcloud://a://b"); when the scheme is stripped,
    the provider ID holds "://" exactly once: it is [a ++ "://" ++ b]
    with no "://" in [a] or in [b], and [b] is the result; and every
    provider ID of that shape is stripped to [b]. *)
Theorem getProviderID_separator_twice :
  (forall node : Node,
     twice (SpecProviderID node) "://" ->
     getProviderID node = SpecProviderID node) /\
  (forall n, getProviderID
     {| Name := n; SpecProviderID := "vcloud://a://b" |}
     = "vcloud://a://b") /\
  (forall node : Node,
     SpecProviderID node <> "" ->
     getProviderID node <> SpecProviderID node ->
     ~ twice (SpecProviderID node) "://" /\
     exists a b, SpecProviderID node = a +:+ "://" +:+ b /\
                 Contains a "://" = false /\
                 Contains b "://" = false /\
                 getProviderID node = b) /\
  (forall (node : Node) (a b : string),
     SpecProviderID node = a +:+ "://" +:+ b ->
     Contains a "://" = false -> Contains b "://" = false ->
     getProviderID node = b).
Proof.
  split; [|split; [reflexivity|split]].
  - intros node Htw.
    pose proof (Split_twice _ _ sep_nonempty Htw) as Hlen.
    destruct (getProviderID_raw node) as [E|[E _]]; [lia | exact E |].
    destruct Htw as (a & b & c & Hs). rewrite Hs in E.
    apply (f_equal String.length) in E. rewrite !length_app in E.
    simpl in E. lia.
  - intros node Hne Hstrip. split.
    + intros Htw.
      destruct (getProviderID_stripped node Hne Hstrip) as (a & b & HS & _).
      pose proof (Split_twice _ _ sep_nonempty Htw) as Hlen.
      rewrite HS in Hlen. simpl in Hlen. lia.
    + destruct (getProviderID_stripped_once node Hne Hstrip)
        as (a & b & HC & HN & Ha & Hb).
      exists a, b. split; [now apply Cut_Some|].
      split; [now apply Contains_false|].
      split; [now apply Contains_false | exact Hb].
  - intros node a b Hp Ha Hb.
    apply Contains_false in Ha, Hb.
    apply (getProviderID_strip node a b).
    + rewrite Hp. intros E. apply (f_equal String.length) in E.
      rewrite !length_app in E. simpl in E. lia.
    + apply Split_once; [apply sep_nonempty | | exact Hb].
      rewrite Hp. now apply Cut_scheme.
Qed.

(** A provider ID with three parts, and one with two. *)
Lemma getProviderID_separator_twice_witness :
  (twice "vcloud://a://b" "://" /\
   getProviderID {| Name := "n"; SpecProviderID := "vcloud://a://b" |}
     = "vcloud://a://b") /\
  (exists a b, "vcloud://i-1" = a +:+ "://" +:+ b /\
               Contains a "://" = false /\ Contains b "://" = false /\
               getProviderID {| Name := "n"; SpecProviderID := "vcloud://i-1" |}
                 = b).
Proof.
  assert (Htw : twice "vcloud://a://b" "://")
    by (exists "vcloud", "a", "b"; reflexivity).
  split.
  - split; [exact Htw|].
    exact (proj1 getProviderID_separator_twice
             {| Name := "n"; SpecProviderID := "vcloud://a://b" |} Htw).
  - refine (proj2 (proj1 (proj2 (proj2 getProviderID_separator_twice))
             {| Name := "n"; SpecProviderID := "vcloud://i-1" |} _ _)).
    + simpl. discriminate.
    + vm_compute. discriminate.
Defined.

(** The provider ID of the scheme alone. *)
Lemma getProviderID_fallback_order_witness :
  getProviderID {| Name := "node-1"; SpecProviderID := "vcloud://" |} = "".
Proof.
  apply (proj2 (proj2 (proj2 getProviderID_fallback_order))).
  right. exists "vcloud". split; reflexivity.
Defined.

End NodeIdentityClaims.

(** ** Power-state classification *)

(** C6: [isInstanceShutdown] is true for exactly the five strings
    POWERED_OFF, SUSPENDED, TERMINATED, BACKUP and BACKUP_POWEROFF;
    for every other string, the empty one and unknown states such as
    "POWERED_ON" or "terminated" included, it is false. *)
Theorem isInstanceShutdown_five (state : string) :
  (isInstanceShutdown state = true <->
     state = "POWERED_OFF" \/ state = "SUSPENDED" \/ state = "TERMINATED" \/
     state = "BACKUP" \/ state = "BACKUP_POWEROFF") /\
  (isInstanceShutdown state = false <->
     state <> "POWERED_OFF" /\ state <> "SUSPENDED" /\
     state <> "TERMINATED" /\ state <> "BACKUP" /\
     state <> "BACKUP_POWEROFF") /\
  isInstanceShutdown "" = false /\
  isInstanceShutdown "POWERED_ON" = false /\
  isInstanceShutdown "terminated" = false.
Proof.
  unfold isInstanceShutdown, shutdownStates.
  repeat split; try (vm_compute; reflexivity).
  - rewrite !lookup_insert, lookup_empty.
    repeat case_decide; simpl; intuition congruence.
  - intros H. repeat destruct H as [H|H]; subst; vm_compute; reflexivity.
  - rewrite !lookup_insert, lookup_empty in H.
    repeat case_decide; simpl in *; congruence.
  - rewrite !lookup_insert, lookup_empty in H.
    repeat case_decide; simpl in *; congruence.
  - rewrite !lookup_insert, lookup_empty in H.
    repeat case_decide; simpl in *; congruence.
  - rewrite !lookup_insert, lookup_empty in H.
    repeat case_decide; simpl in *; congruence.
  - rewrite !lookup_insert, lookup_empty in H.
    repeat case_decide; simpl in *; congruence.
  - intros (?&?&?&?&?). rewrite !lookup_insert, lookup_empty.
    repeat case_decide; simpl; congruence.
Qed.

(** ** The world *)

Lemma since_app (w w' : World) (evs : list Event) :
  trace w' = trace w ++ evs -> since w w' = evs.
Proof. unfold since. intros ->. apply drop_app_length. Qed.

Lemma attempts_app (l1 l2 : list Event) :
  attempts (l1 ++ l2) = (attempts l1 + attempts l2)%nat.
Proof.
  induction l1 as [|[t r|d] l1 IH]; simpl; [reflexivity | now rewrite IH | exact IH].
Qed.

Lemma sleeps_app (l1 l2 : list Event) :
  sleeps (l1 ++ l2) = sleeps l1 ++ sleeps l2.
Proof.
  induction l1 as [|[t r|d] l1 IH]; simpl; [reflexivity | exact IH | now rewrite IH].
Qed.

Lemma Do_trace (ctx : Context) (req : HttpRequest) (w : World) :
  trace (Do ctx req w).2 = trace w ++ [EvDo (clock w) req].
Proof.
  unfold Do. destruct (ctxDone ctx (clock w)); [reflexivity|].
  destruct (doneAt ctx) as [d|]; [|reflexivity].
  destruct (d <? _); reflexivity.
Qed.

Lemma Do_remote (ctx : Context) (req : HttpRequest) (w : World) :
  remote (Do ctx req w).2 = remote w.
Proof.
  unfold Do. destruct (ctxDone ctx (clock w)); [reflexivity|].
  destruct (doneAt ctx) as [d|]; [|reflexivity].
  destruct (d <? _); reflexivity.
Qed.

(** A context that is done fails the call at once: no round trip is
    made and no time passes. *)
Lemma Do_done (ctx : Context) (req : HttpRequest) (w : World) :
  ctxDone ctx (clock w) = true ->
  Do ctx req w = (Failed ErrContext, log (EvDo (clock w) req) w).
Proof. unfold Do. now intros ->. Qed.

(** A call that returns a response ends no later than the context. *)
Lemma Do_responded (ctx : Context) (req : HttpRequest) (w w1 : World)
    (r : Response) (d : Time) :
  Do ctx req w = (Responded r, w1) -> doneAt ctx = Some d -> clock w1 <= d.
Proof.
  unfold Do, ctxDone. intros H Hd. rewrite Hd in H.
  destruct (d <=? clock w); [discriminate|].
  destruct (Z.ltb_spec d (clock w + elapsed (remote w (rounds w) req)));
    [discriminate|].
  injection H as _ <-. simpl. lia.
Qed.

Lemma ctxDone_mono (ctx : Context) (t t' : Time) :
  t <= t' -> ctxDone ctx t = true -> ctxDone ctx t' = true.
Proof.
  unfold ctxDone. destruct (doneAt ctx) as [d|]; [|discriminate].
  rewrite !Z.leb_le. lia.
Qed.

(** ** The request client *)

Section RequestFacts.

Variable newRequestError : string -> string -> option string.
Variables (p : VCloudProvider) (ctx : Context) (method : string)
          (body : option string).

(** [retryLoop] follows the policy. *)
Lemma retryLoop_policy (url : string) (remaining i : nat)
    (resp : option Response) (w : World) :
  newRequestError method url = None ->
  (i + remaining = 3)%nat -> (1 <= remaining)%nat ->
  RetryPolicy ctx (newRequest p method url body) (S i) w
    (retryLoop newRequestError remaining i resp p ctx method url body w).1
    (retryLoop newRequestError remaining i resp p ctx method url body w).2.
Proof.
  intros Hreq. revert i resp w.
  induction remaining as [|remaining IH]; intros i resp w Hi Hrem; [lia|].
  simpl. rewrite Hreq.
  destruct (Do ctx (newRequest p method url body) w) as [o w1] eqn:HDo.
  unfold maxRetries. change (3 - 1)%nat with 2%nat.
  destruct o as [e|r].
  - destruct (Nat.ltb_spec i 2) as [Hlt|Hge].
    + eapply attempt_retry; [exact HDo | reflexivity | lia |].
      rewrite Nat.add_1_r. apply IH; lia.
    + apply (attempt_final _ _ _ _ (Failed e) _ HDo). right. lia.
  - destruct (Z.leb_spec 500 (StatusCode r)) as [H5|H5]; simpl.
    + destruct (Nat.ltb_spec i 2) as [Hlt|Hge].
      * eapply attempt_retry; [exact HDo | | lia |].
        -- simpl. now apply Z.leb_le.
        -- rewrite Nat.add_1_r. apply IH; lia.
      * apply (attempt_final _ _ _ _ (Responded r) _ HDo). right. lia.
    + apply (attempt_final _ _ _ _ (Responded r) _ HDo). left.
      simpl. apply Z.leb_gt. lia.
Qed.

(** The policy fixes the result and the final world. *)
Lemma RetryPolicy_det (req : HttpRequest) (k : nat) (w : World)
    res1 w1 res2 w2 :
  RetryPolicy ctx req k w res1 w1 ->
  RetryPolicy ctx req k w res2 w2 ->
  res1 = res2 /\ w1 = w2.
Proof.
  intros H1. revert res2 w2.
  induction H1 as [k w o w1 HDo Hfin | k w o w1 res w' HDo Hre Hk _ IH];
    intros res2 w2 H2; inversion H2; subst;
    match goal with
    | Ha : Do ctx req w = _, Hb : Do ctx req w = _ |- _ =>
        rewrite Ha in Hb; injection Hb as <- <-
    end.
  - now split.
  - destruct Hfin; [congruence | lia].
  - match goal with Hf : _ \/ _ |- _ => destruct Hf; [congruence | lia] end.
  - now apply IH.
Qed.

(** [Request] returns what the policy prescribes, and nothing else. *)
Lemma Request_policy (path : string) (w : World) res w' :
  newRequestError method (requestURL p path) = None ->
  RetryPolicy ctx (newRequest p method (requestURL p path) body) 1 w res w'
  <-> Request newRequestError p ctx method path body w = (res, w').
Proof.
  intros Hreq.
  pose proof (retryLoop_policy (requestURL p path) 3 0 None w Hreq
                eq_refl ltac:(lia)) as HP.
  fold maxRetries in HP.
  change (retryLoop newRequestError maxRetries 0 None p ctx method
            (requestURL p path) body w)
    with (Request newRequestError p ctx method path body w) in HP.
  split.
  - intros H. destruct (RetryPolicy_det _ _ _ _ _ _ _ HP H) as [<- <-].
    now destruct (Request newRequestError p ctx method path body w).
  - intros E. now rewrite E in HP.
Qed.

(** Each turn of the loop adds at most one attempt. *)
Lemma retryLoop_attempts (url : string) (remaining i : nat)
    (resp : option Response) (w : World) :
  exists evs,
    trace (retryLoop newRequestError remaining i resp p ctx method url body w).2
      = trace w ++ evs /\
    (attempts evs <= remaining)%nat.
Proof.
  revert i resp w.
  induction remaining as [|remaining IH]; intros i resp w; simpl.
  - exists []. now rewrite app_nil_r.
  - destruct (newRequestError method url).
    { exists []. rewrite app_nil_r. split; [reflexivity | simpl; lia]. }
    pose proof (Do_trace ctx (newRequest p method url body) w) as HT.
    destruct (Do ctx (newRequest p method url body) w) as [o w1].
    simpl in HT.
    assert (Hrec : forall resp',
      exists evs,
        trace (retryLoop newRequestError remaining (S i) resp' p ctx method
                 url body (Sleep (Z.of_nat (i + 1) * Second) w1)).2
          = trace w ++ evs /\ (attempts evs <= S remaining)%nat).
    { intros resp'.
      destruct (IH (S i) resp' (Sleep (Z.of_nat (i + 1) * Second) w1))
        as (evs & -> & Hn).
      simpl. rewrite HT, <- !app_assoc. eexists. split; [reflexivity|].
      rewrite !attempts_app. simpl. lia. }
    assert (Hstop : exists evs,
      trace w1 = trace w ++ evs /\ (attempts evs <= S remaining)%nat).
    { eexists. split; [exact HT | simpl; lia]. }
    destruct o as [e|r].
    + destruct (i <? _)%nat; [apply Hrec | exact Hstop].
    + destruct ((500 <=? StatusCode r) && (i <? _)%nat);
        [apply Hrec | exact Hstop].
Qed.

(** A result without an error is a response, and it arrived before
    the context was done. *)
Lemma retryLoop_response (url : string) (remaining i : nat)
    (resp0 : option Response) (w : World) resp w' :
  (i + remaining = 3)%nat -> (1 <= remaining)%nat ->
  retryLoop newRequestError remaining i resp0 p ctx method url body w
    = ((resp, None), w') ->
  (exists r, resp = Some r) /\
  (forall d, doneAt ctx = Some d -> clock w' <= d).
Proof.
  revert i resp0 w.
  induction remaining as [|remaining IH]; intros i resp0 w Hi Hrem; [lia|].
  simpl. destruct (newRequestError method url); [discriminate|].
  destruct (Do ctx (newRequest p method url body) w) as [o w1] eqn:HDo.
  unfold maxRetries. change (3 - 1)%nat with 2%nat.
  destruct o as [e|r].
  - destruct (Nat.ltb_spec i 2) as [Hlt|Hge]; [|discriminate].
    apply IH; lia.
  - destruct ((500 <=? StatusCode r) && (i <? 2)%nat) eqn:Hre.
    + apply andb_true_iff in Hre as [_ Hlt]. apply Nat.ltb_lt in Hlt.
      apply IH; lia.
    + intros [= <- <-]. split; [now exists r|].
      intros d Hd. eapply Do_responded; eassumption.
Qed.

(** With a context that is done from the start, and a request that
    can be built, [Request] still makes its three attempts and sleeps
    1s and 2s between them; no round trip is made. *)
Lemma Request_cancelled (path : string) (w : World) :
  newRequestError method (requestURL p path) = None ->
  ctxDone ctx (clock w) = true ->
  let req := newRequest p method (requestURL p path) body in
  Request newRequestError p ctx method path body w =
    ((None, Some ErrContext),
     {| clock := clock w + 1 * Second + 2 * Second;
        rounds := rounds w; remote := remote w;
        trace := trace w ++
          [EvDo (clock w) req; EvSleep (1 * Second);
           EvDo (clock w + 1 * Second) req; EvSleep (2 * Second);
           EvDo (clock w + 1 * Second + 2 * Second) req] |}).
Proof.
  intros Hreq Hdone req. unfold Request, maxRetries. simpl.
  rewrite Hreq. fold req.
  rewrite (Do_done ctx req w Hdone). simpl.
  rewrite Do_done by (simpl; eapply ctxDone_mono; [|exact Hdone];
                      unfold Second; lia).
  simpl.
  rewrite Do_done by (simpl; eapply ctxDone_mono; [|exact Hdone];
                      unfold Second; lia).
  simpl. unfold log, Sleep. cbn [clock rounds remote trace].
  change (Z.of_nat 1) with 1. change (Z.of_nat 2) with 2.
  rewrite <- !app_assoc. reflexivity.
Qed.

End RequestFacts.

Example requestURL_instance :
  requestURL sampleProvider "/instances/i-1" =
  "https://api.vcloud.example.com/clusters/d73c6df2-f7fe-4f7c-bf70-9f94cce26430/instances/i-1".
Proof. reflexivity. Qed.

(** A 503, a refused connection, then a 200: three attempts. *)
Example Request_three_attempts :
  let run :=
    Request noRequestError sampleProvider background "GET" "/instances/i-1"
      None (startWorld [answer 503 "busy"; refused; answer 200 "active"]) in
  run.1 = (Some {| StatusCode := 200; Body := "active" |}, None) /\
  sleeps (trace run.2) = [1 * Second; 2 * Second] /\
  rounds run.2 = 3%nat.
Proof. vm_compute. repeat split. Qed.

(** A 400 is final. *)
Example Request_client_error :
  let run :=
    Request noRequestError sampleProvider background "GET" "/instances/i-1"
      None (startWorld [answer 400 "bad request"; answer 200 "active"]) in
  run.1 = (Some {| StatusCode := 400; Body := "bad request" |}, None) /\
  trace run.2 =
    [EvDo 0 (newRequest sampleProvider "GET"
               (requestURL sampleProvider "/instances/i-1") None)].
Proof. vm_compute. repeat split. Qed.

(** C4: [Request] makes at most 3 attempts; attempt [k] is followed by
    another one exactly when the call failed or the status is at
    least 500, and [k < 3]: then the client sleeps [k] seconds first.
    A response with a status below 500 (any 4xx) is returned at once;
    failures on attempts 1 and 2 and a response on attempt 3 give
    that response after sleeps of exactly 1s and 2s. *)
Theorem Request_retry_policy
    (newRequestError : string -> string -> option string)
    (p : VCloudProvider) (ctx : Context) (method path : string)
    (body : option string) (w : World) :
  let req := newRequest p method (requestURL p path) body in
  let run := Request newRequestError p ctx method path body w in
  (attempts (since w run.2) <= 3)%nat /\
  (newRequestError method (requestURL p path) = None ->
   (forall res w', run = (res, w') <-> RetryPolicy ctx req 1 w res w') /\
   (forall r w1,
      Do ctx req w = (Responded r, w1) -> StatusCode r < 500 ->
      run = ((Some r, None), w1) /\ since w w1 = [EvDo (clock w) req]) /\
   (forall e1 w1 e2 w2 r w3,
      Do ctx req w = (Failed e1, w1) ->
      Do ctx req (Sleep (1 * Second) w1) = (Failed e2, w2) ->
      Do ctx req (Sleep (2 * Second) w2) = (Responded r, w3) ->
      run = ((Some r, None), w3) /\
      sleeps (since w w3) = [1 * Second; 2 * Second] /\
      attempts (since w w3) = 3%nat)).
Proof.
  intros req run. split.
  - destruct (retryLoop_attempts newRequestError p ctx method body
                (requestURL p path) maxRetries 0 None w) as (evs & HT & Hn).
    subst run. unfold Request. now rewrite (since_app _ _ _ HT).
  - intros Hreq.
    pose proof (fun res w' =>
      Request_policy newRequestError p ctx method body path w res w' Hreq)
      as HP.
    split; [|split].
    + intros res w'. symmetry. apply HP.
    + intros r w1 HDo Hlt. split.
      * apply HP. apply (attempt_final _ _ _ _ (Responded r) _ HDo).
        left. simpl. apply Z.leb_gt. lia.
      * apply since_app. pose proof (Do_trace ctx req w) as HT.
        now rewrite HDo in HT.
    + intros e1 w1 e2 w2 r w3 H1 H2 H3.
      assert (HT : trace w3 = trace w ++
                [EvDo (clock w) req; EvSleep (1 * Second);
                 EvDo (clock (Sleep (1 * Second) w1)) req;
                 EvSleep (2 * Second);
                 EvDo (clock (Sleep (2 * Second) w2)) req]).
      { pose proof (Do_trace ctx req w) as T1.
        pose proof (Do_trace ctx req (Sleep (1 * Second) w1)) as T2.
        pose proof (Do_trace ctx req (Sleep (2 * Second) w2)) as T3.
        rewrite H1 in T1. rewrite H2 in T2. rewrite H3 in T3.
        simpl in T1, T2, T3. rewrite T3, T2, T1, <- !app_assoc.
        reflexivity. }
      rewrite (since_app _ _ _ HT). split; [|split; reflexivity].
      apply HP.
      eapply attempt_retry; [exact H1 | reflexivity | lia |].
      eapply attempt_retry; [exact H2 | reflexivity | lia |].
      apply (attempt_final _ _ _ _ (Responded r) _ H3). now right.
Qed.

(** Two refused connections, then an answer. *)
Lemma Request_retry_policy_witness :
  let w := startWorld [refused; refused; answer 200 "active"] in
  let run :=
    Request noRequestError sampleProvider background "GET" "/instances/i-1"
      None w in
  run.1 = (Some {| StatusCode := 200; Body := "active" |}, None) /\
  sleeps (since w run.2) = [1 * Second; 2 * Second] /\
  attempts (since w run.2) = 3%nat.
Proof.
  intros w run.
  destruct (Request_retry_policy noRequestError sampleProvider background
              "GET" "/instances/i-1" None w) as [_ H].
  destruct (H eq_refl) as (_ & _ & Hsc).
  edestruct Hsc as (E & Hs & Ha); [reflexivity | reflexivity | reflexivity |].
  subst run. rewrite E. simpl. split; [reflexivity|]. split; assumption.
Defined.

(** ** The resolver *)




(** An error of the request layer is handed on, wrapped. *)
Lemma GetInstanceInfo_request_error
    (newRequestError : string -> string -> option string)
    (decodeInstance : string -> string + Instance)
    (p : VCloudProvider) (ctx : Context) (id : string) (w w' : World)
    (resp : option Response) (e : error) :
  Request newRequestError p ctx "GET" ("/instances/" +:+ id) None w
    = ((resp, Some e), w') ->
  GetInstanceInfo newRequestError decodeInstance p ctx id w
    = (Err (ErrGetInstance id e), w').
Proof. unfold GetInstanceInfo. now intros ->. Qed.

(** [GetInstanceInfo] never dereferences a nil response, and what it
    returns without an error was answered before the context was
    done. *)
Lemma GetInstanceInfo_ok
    (newRequestError : string -> string -> option string)
    (decodeInstance : string -> string + Instance)
    (p : VCloudProvider) (ctx : Context) (id : string) (w : World) :
  let fetched := GetInstanceInfo newRequestError decodeInstance p ctx id w in
  fetched.1 <> NilDeref /\
  (forall i d, fetched.1 = Ok i -> doneAt ctx = Some d ->
               clock fetched.2 <= d).
Proof.
  unfold GetInstanceInfo.
  destruct (Request newRequestError p ctx "GET" ("/instances/" +:+ id) None w)
    as [[resp err] w'] eqn:HReq.
  destruct err as [e|]; simpl; [split; [discriminate | intros; discriminate]|].
  apply retryLoop_response in HReq as [[r ->] Hclock]; [|reflexivity | unfold maxRetries; lia].
  split.
  - destruct (StatusCode r =? 404); [discriminate|].
    destruct (negb _); [discriminate|].
    destruct (decodeInstance _); [discriminate|].
    destruct (String.eqb _ _); discriminate.
  - intros i d _ Hd.
    assert (clock w' <= d) by now apply Hclock.
    destruct (StatusCode r =? 404); [assumption|].
    destruct (negb _); [assumption|].
    destruct (decodeInstance _); [assumption|].
    destruct (String.eqb _ _); assumption.
Qed.

(** ** The cache *)

Lemma Since_self (t : Time) : Since t t = 0.
Proof. unfold Since, Sub. rewrite Z.sub_diag. reflexivity. Qed.

(** For a TTL that is a [Duration] below the largest one, the
    saturation of [Since] plays no role in the comparison. *)
Lemma Since_le (now t : Time) (d : Duration) :
  minDuration <= d < maxDuration ->
  Since now t <= d <-> now - t <= d.
Proof.
  unfold Since, Sub. intros Hd.
  destruct (Z.ltb_spec (now - t) minDuration);
    [|destruct (Z.ltb_spec maxDuration (now - t))]; lia.
Qed.

Lemma isExpired_false (now : Time) (entry : cacheEntry) :
  isExpired now entry = false <-> Since now (timestamp entry) <= ttl entry.
Proof. unfold isExpired. apply Z.ltb_ge. Qed.

Lemma ttlFor_class (i : InstanceInfo) :
  ttlFor i = if Exists i then 30 * Second else 5 * Second.
Proof. unfold ttlFor. now destruct (Exists i). Qed.

Lemma ttlFor_pos (i : InstanceInfo) : 0 < ttlFor i.
Proof. rewrite ttlFor_class. destruct (Exists i); unfold Second; lia. Qed.

(** An entry is not expired at the instant it is stored. *)
Lemma stored_not_expired (i : InstanceInfo) (t : Time) :
  isExpired t {| info := i; timestamp := t; ttl := ttlFor i |} = false.
Proof.
  apply isExpired_false. simpl. rewrite Since_self.
  pose proof (ttlFor_pos i). lia.
Qed.

Lemma cleanup_lookup (now : Time) (m : gmap string cacheEntry)
    (k : string) (e : cacheEntry) :
  cleanupOldEntriesLocked now m !! k = Some e <->
  m !! k = Some e /\ isExpired now e = false.
Proof. unfold cleanupOldEntriesLocked. apply map_lookup_filter_Some. Qed.

Lemma freshEntry_Some (c : instanceCache) (id : string) (now : Time)
    (entry : cacheEntry) :
  freshEntry c id now = Some entry <->
  cache c !! id = Some entry /\ isExpired now entry = false.
Proof.
  unfold freshEntry. destruct (cache c !! id) as [e|].
  - destruct (isExpired now e) eqn:E; split.
    + discriminate.
    + intros [[= <-] ?]. congruence.
    + intros [= <-]. now split.
    + now intros [[= <-] _].
  - split; [discriminate | now intros [? _]].
Qed.

Section CacheFacts.

Variable newRequestError : string -> string -> option string.
Variable decodeInstance : string -> string + Instance.

(** [get] serves the fresh entry if there is one, and fetches
    otherwise. *)
Lemma get_unfold (c : instanceCache) (ctx : Context) (id : string)
    (w : World) :
  get newRequestError decodeInstance c ctx id w =
  match freshEntry c id (clock w) with
  | Some entry => (Ok (info entry), c, w)
  | None => fetchAndStore newRequestError decodeInstance c ctx id w
  end.
Proof.
  unfold get, freshEntry. destruct (cache c !! id) as [e|]; [|reflexivity].
  now destruct (isExpired (clock w) e).
Qed.

(** What a fetch leaves in the cache, by its result. *)
Lemma fetchAndStore_spec (c : instanceCache) (ctx : Context) (id : string)
    (w : World) :
  let fetched :=
    GetInstanceInfo newRequestError decodeInstance (provider c) ctx id w in
  let run := fetchAndStore newRequestError decodeInstance c ctx id w in
  run.1.1 = fetched.1 /\ run.2 = fetched.2 /\
  provider run.1.2 = provider c /\
  match fetched.1 with
  | Ok i =>
      let stored :=
        <[id := {| info := i; timestamp := clock fetched.2;
                   ttl := ttlFor i |}]> (cache c) in
      cache run.1.2 =
        if (100 <? size stored)%nat
        then cleanupOldEntriesLocked (clock fetched.2) stored
        else stored
  | _ => run.1.2 = c
  end.
Proof.
  unfold fetchAndStore.
  destruct (GetInstanceInfo newRequestError decodeInstance (provider c) ctx id w)
    as [[i|e|] w']; simpl; repeat split; reflexivity.
Qed.

(** After a successful fetch the new entry is in the map, sweep or
    no sweep. *)
Lemma fetchAndStore_stored (c : instanceCache) (ctx : Context) (id : string)
    (w : World) (i : InstanceInfo) (c1 : instanceCache) (w1 : World) :
  fetchAndStore newRequestError decodeInstance c ctx id w = (Ok i, c1, w1) ->
  cache c1 !! id =
    Some {| info := i; timestamp := clock w1; ttl := ttlFor i |}.
Proof.
  intros E.
  destruct (fetchAndStore_spec c ctx id w) as (Hr & Hw & _ & Hc).
  rewrite E in Hr, Hw, Hc. simpl in Hr, Hw, Hc.
  rewrite <- Hr, <- Hw in Hc. simpl in Hc. rewrite Hc.
  destruct (100 <? _)%nat.
  - apply cleanup_lookup. split; [apply lookup_insert_eq|].
    apply stored_not_expired.
  - apply lookup_insert_eq.
Qed.

(** Whatever [get] leaves in the map and was not there before is the
    entry it has just stored for [id]. *)
Lemma get_new_entry (c : instanceCache) (ctx : Context) (id : string)
    (w : World) r c1 w1 (k : string) (e : cacheEntry) :
  get newRequestError decodeInstance c ctx id w = (r, c1, w1) ->
  cache c1 !! k = Some e -> cache c !! k <> Some e ->
  k = id /\ r = Ok (info e) /\
  e = {| info := info e; timestamp := clock w1; ttl := ttlFor (info e) |}.
Proof.
  rewrite get_unfold. intros E Hk Hnew.
  destruct (freshEntry c id (clock w)) as [entry|].
  { injection E as _ <- _. contradiction. }
  destruct (fetchAndStore_spec c ctx id w) as (Hr & Hw & _ & Hc).
  rewrite E in Hr, Hw, Hc. simpl in Hr, Hw, Hc.
  destruct (GetInstanceInfo newRequestError decodeInstance (provider c) ctx id w)
    as [[i|err|] w']; simpl in *; subst; try contradiction.
  assert (Hin : <[id := {| info := i; timestamp := clock w';
                           ttl := ttlFor i |}]> (cache c) !! k = Some e).
  { rewrite Hc in Hk. destruct (100 <? _)%nat; [|assumption].
    now apply cleanup_lookup in Hk as [Hk _]. }
  rewrite lookup_insert in Hin. case_decide; [|contradiction].
  injection Hin as <-. now subst.
Qed.

End CacheFacts.

(** C1: a fresh entry for [id] (its age, as [time.Since] measures it,
    is at most its TTL) is returned as it is, and the world is left
    as it was: no attempt, no round trip, no sleep.  So after a [get]
    that returned a record, any later [get] for the same [id] on the
    cache it left, made while the age of the entry is within its TTL,
    returns the same record and fetches nothing: the two calls fetch
    at most once. *)
Theorem get_fresh_hit
    (newRequestError : string -> string -> option string)
    (decodeInstance : string -> string + Instance)
    (c : instanceCache) (ctx : Context) (id : string) (w : World) :
  (forall entry,
     cache c !! id = Some entry ->
     Since (clock w) (timestamp entry) <= ttl entry ->
     get newRequestError decodeInstance c ctx id w = (Ok (info entry), c, w)) /\
  (forall i c1 w1,
     get newRequestError decodeInstance c ctx id w = (Ok i, c1, w1) ->
     exists entry,
       cache c1 !! id = Some entry /\ info entry = i /\
       forall ctx' w2,
         Since (clock w2) (timestamp entry) <= ttl entry ->
         get newRequestError decodeInstance c1 ctx' id w2 = (Ok i, c1, w2)).
Proof.
  assert (Hit : forall c0 ctx0 w0 entry,
    cache c0 !! id = Some entry ->
    Since (clock w0) (timestamp entry) <= ttl entry ->
    get newRequestError decodeInstance c0 ctx0 id w0
      = (Ok (info entry), c0, w0)).
  { intros c0 ctx0 w0 entry Hin Hage. rewrite get_unfold.
    assert (freshEntry c0 id (clock w0) = Some entry) as ->; [|reflexivity].
    apply freshEntry_Some. split; [assumption|]. now apply isExpired_false. }
  split; [apply Hit|].
  intros i c1 w1. rewrite get_unfold.
  destruct (freshEntry c id (clock w)) as [entry|] eqn:HF.
  - intros [= <- <- <-]. apply freshEntry_Some in HF as [Hin _].
    exists entry. repeat split; [assumption|].
    intros ctx' w2. now apply Hit.
  - intros E. apply fetchAndStore_stored in E.
    eexists. split; [exact E|]. split; [reflexivity|].
    intros ctx' w2 Hage. now apply (Hit c1 ctx' w2 _ E).
Qed.

(** An entry fetched at time 0 with the TTL of 30s, read at 10s. *)
Lemma get_fresh_hit_witness :
  get noRequestError sampleDecode warmCache background "i-1"
    (worldAt (10 * Second) [])
  = (Ok (info (sampleEntry 0)), warmCache, worldAt (10 * Second) []).
Proof.
  apply (proj1 (get_fresh_hit noRequestError sampleDecode warmCache
                  background "i-1" (worldAt (10 * Second) []))
           (sampleEntry 0)).
  - reflexivity.
  - vm_compute. discriminate.
Defined.

(** C2: an entry that [get] has written carries the TTL of its class:
    30 seconds when the record exists, 5 seconds when it does not.
    Whatever is in the map after [get] and was not there before is
    the entry for [id], holds the record that [get] returns, and has
    the time of the store as its timestamp; and a [get] that fetched
    a record leaves exactly such an entry for [id]. *)
Theorem get_ttl_by_existence
    (newRequestError : string -> string -> option string)
    (decodeInstance : string -> string + Instance)
    (c : instanceCache) (ctx : Context) (id : string) (w : World) :
  let run := get newRequestError decodeInstance c ctx id w in
  (forall k e,
     cache run.1.2 !! k = Some e -> cache c !! k <> Some e ->
     k = id /\ run.1.1 = Ok (info e) /\ timestamp e = clock run.2 /\
     ttl e = (if Exists (info e) then 30 * Second else 5 * Second)) /\
  (freshEntry c id (clock w) = None ->
   forall i, run.1.1 = Ok i ->
     cache run.1.2 !! id =
       Some {| info := i; timestamp := clock run.2;
               ttl := if Exists i then 30 * Second else 5 * Second |}) /\
  30 * Second = 30000000000 /\ 5 * Second = 5000000000.
Proof.
  intros run. subst run.
  destruct (get newRequestError decodeInstance c ctx id w) as [[r c1] w1] eqn:E.
  simpl. split; [|split; [|split; reflexivity]].
  - intros k e Hk Hnew.
    destruct (get_new_entry _ _ _ _ _ _ _ _ _ _ _ E Hk Hnew) as (-> & -> & He).
    repeat split; try reflexivity.
    + rewrite He. reflexivity.
    + rewrite He. simpl. apply ttlFor_class.
  - intros HF i ->. rewrite get_unfold, HF in E.
    rewrite <- ttlFor_class. now apply fetchAndStore_stored in E.
Qed.

(** The entry written for an instance that the API does not know. *)
Lemma get_ttl_by_existence_witness :
  let run :=
    get noRequestError sampleDecode emptyCache background "gone"
      (startWorld [answer 404 "Instance not found"]) in
  cache run.1.2 !! "gone" =
    Some {| info := absent; timestamp := clock run.2; ttl := 5 * Second |}.
Proof.
  refine (proj1 (proj2
    (get_ttl_by_existence noRequestError sampleDecode emptyCache background
       "gone" (startWorld [answer 404 "Instance not found"])))
    _ absent _).
  - vm_compute. reflexivity.
  - vm_compute. reflexivity.
Defined.

(** The TTL of the class is an invariant of the map: [get],
    [invalidate] and [clear] keep it, and a new cache has it. *)
Lemma ttlByClass_get
    (newRequestError : string -> string -> option string)
    (decodeInstance : string -> string + Instance)
    (c : instanceCache) (ctx : Context) (id : string) (w : World) :
  ttlByClass (cache c) ->
  ttlByClass (cache (get newRequestError decodeInstance c ctx id w).1.2).
Proof.
  intros Hc k e. rewrite get_unfold.
  destruct (freshEntry c id (clock w)); [apply Hc|].
  destruct (fetchAndStore_spec newRequestError decodeInstance c ctx id w)
    as (_ & _ & _ & Hm).
  destruct (GetInstanceInfo newRequestError decodeInstance (provider c) ctx id w)
    as [[i|err|] w']; simpl in Hm; try (rewrite Hm; apply Hc).
  rewrite Hm. intros Hk.
  assert (Hin : <[id := {| info := i; timestamp := clock w';
                           ttl := ttlFor i |}]> (cache c) !! k = Some e).
  { destruct (100 <? _)%nat; [|assumption].
    now apply cleanup_lookup in Hk as [Hk _]. }
  rewrite lookup_insert in Hin. case_decide.
  - now injection Hin as <-.
  - now apply (Hc k).
Qed.

Lemma ttlByClass_new (p : VCloudProvider) :
  ttlByClass (cache (newInstanceCache p)).
Proof. intros k e. simpl. now rewrite lookup_empty. Qed.

Lemma ttlByClass_invalidate (c : instanceCache) (id : string) :
  ttlByClass (cache c) -> ttlByClass (cache (invalidate c id)).
Proof.
  intros Hc k e. simpl. rewrite lookup_delete. case_decide; [discriminate|].
  apply Hc.
Qed.

Lemma ttlByClass_clear (c : instanceCache) : ttlByClass (cache (clear c)).
Proof. intros k e. simpl. now rewrite lookup_empty. Qed.

(** The error path of [get]. *)
Lemma get_fetch_error
    (newRequestError : string -> string -> option string)
    (decodeInstance : string -> string + Instance)
    (c : instanceCache) (ctx : Context) (id : string) (w w' : World)
    (e : error) :
  freshEntry c id (clock w) = None ->
  GetInstanceInfo newRequestError decodeInstance (provider c) ctx id w
    = (Err e, w') ->
  get newRequestError decodeInstance c ctx id w = (Err e, c, w').
Proof.
  intros HF HG. rewrite get_unfold, HF. unfold fetchAndStore. now rewrite HG.
Qed.

(** After [invalidate] no entry is served for [id]: the next [get]
    fetches. *)
Lemma freshEntry_invalidate (c : instanceCache) (id : string) (now : Time) :
  freshEntry (invalidate c id) id now = None.
Proof. unfold freshEntry. simpl. now rewrite lookup_delete_eq. Qed.

(** C3: when [get] has no fresh entry for [id] and the fetch returns
    an error, [get] returns that very error and the cache it leaves
    is the cache it found: no key is added, removed or replaced, and
    an expired entry for [id] stays where it is. *)
Theorem get_error_keeps_cache
    (newRequestError : string -> string -> option string)
    (decodeInstance : string -> string + Instance)
    (c : instanceCache) (ctx : Context) (id : string) (w w' : World)
    (e : error) :
  freshEntry c id (clock w) = None ->
  GetInstanceInfo newRequestError decodeInstance (provider c) ctx id w
    = (Err e, w') ->
  get newRequestError decodeInstance c ctx id w = (Err e, c, w').
Proof. apply get_fetch_error. Qed.

(** An expired entry and a remote end that refuses every connection. *)
Lemma get_error_keeps_cache_witness :
  get noRequestError sampleDecode warmCache background "i-1"
    (worldAt (60 * Second) [])
  = (Err (ErrGetInstance "i-1" (ErrTransport "connection refused")),
     warmCache,
     (GetInstanceInfo noRequestError sampleDecode sampleProvider background
        "i-1" (worldAt (60 * Second) [])).2).
Proof.
  apply get_error_keeps_cache.
  - vm_compute. reflexivity.
  - reflexivity.
Defined.

(** An error never comes with a changed cache. *)
Lemma get_error_cache
    (newRequestError : string -> string -> option string)
    (decodeInstance : string -> string + Instance)
    (c c1 : instanceCache) (ctx : Context) (id : string) (w w1 : World)
    (e : error) :
  get newRequestError decodeInstance c ctx id w = (Err e, c1, w1) -> c1 = c.
Proof.
  rewrite get_unfold. destruct (freshEntry c id (clock w)); [discriminate|].
  unfold fetchAndStore.
  destruct (GetInstanceInfo newRequestError decodeInstance (provider c) ctx id w)
    as [[i|err|] w']; [discriminate | | discriminate].
  now intros [= _ <- _].
Qed.

(** C9: when the map, with the new entry stored, holds more than 100
    entries, what [get] leaves of it are exactly its entries whose
    age at that moment is at most their TTL, each one unchanged; when
    it holds at most 100 entries, nothing is removed. *)
Theorem get_sweep
    (newRequestError : string -> string -> option string)
    (decodeInstance : string -> string + Instance)
    (c : instanceCache) (ctx : Context) (id : string) (w w' : World)
    (i : InstanceInfo) :
  freshEntry c id (clock w) = None ->
  GetInstanceInfo newRequestError decodeInstance (provider c) ctx id w
    = (Ok i, w') ->
  let stored :=
    <[id := {| info := i; timestamp := clock w'; ttl := ttlFor i |}]>
      (cache c) in
  exists c1,
    get newRequestError decodeInstance c ctx id w = (Ok i, c1, w') /\
    provider c1 = provider c /\
    ((size stored <= 100)%nat -> cache c1 = stored) /\
    ((100 < size stored)%nat ->
     forall k e,
       cache c1 !! k = Some e <->
       stored !! k = Some e /\ Since (clock w') (timestamp e) <= ttl e).
Proof.
  intros HF HG stored. rewrite get_unfold, HF. unfold fetchAndStore.
  rewrite HG. fold stored. eexists. split; [reflexivity|]. simpl.
  split; [reflexivity|]. split.
  - intros Hle. apply Nat.ltb_ge in Hle. now rewrite Hle.
  - intros Hgt k e. apply Nat.ltb_lt in Hgt. rewrite Hgt.
    rewrite cleanup_lookup, isExpired_false. reflexivity.
Qed.

(** A cache of 100 entries fetched at time 0, and a fetch at 60s that
    stores entry 101: the sweep runs. *)
Lemma get_sweep_witness :
  let w := worldAt (60 * Second) [answer 404 "Instance not found"] in
  let w' :=
    (GetInstanceInfo noRequestError sampleDecode sampleProvider background
       "gone" w).2 in
  let stored :=
    <["gone" := {| info := absent; timestamp := clock w';
                   ttl := ttlFor absent |}]> (cache (filledCache 100 0)) in
  exists c1,
    get noRequestError sampleDecode (filledCache 100 0) background "gone" w
      = (Ok absent, c1, w') /\
    forall k e,
      cache c1 !! k = Some e <->
      stored !! k = Some e /\ Since (clock w') (timestamp e) <= ttl e.
Proof.
  intros w w' stored.
  destruct (get_sweep noRequestError sampleDecode (filledCache 100 0)
              background "gone" w w' absent)
    as (c1 & E & _ & _ & Hsweep).
  - vm_compute. reflexivity.
  - reflexivity.
  - exists c1. split; [exact E|]. apply Hsweep. vm_compute. lia.
Defined.

(** ** Cancellation *)

(** With a context that is done from the start, [Request] returns an
    error whether or not the request can be built. *)
Lemma Request_done_error
    (newRequestError : string -> string -> option string)
    (p : VCloudProvider) (ctx : Context) (method path : string)
    (body : option string) (w : World) :
  ctxDone ctx (clock w) = true ->
  exists e w',
    Request newRequestError p ctx method path body w = ((None, Some e), w').
Proof.
  intros Hdone.
  destruct (newRequestError method (requestURL p path)) as [cause|] eqn:Hreq.
  - unfold Request. simpl. rewrite Hreq. now eexists _, _.
  - rewrite (Request_cancelled newRequestError p ctx method body path w Hreq Hdone).
    now eexists _, _.
Qed.




(** * Further properties *)

(** ** The request client, continued *)

Section RequestMore.

Variable newRequestError : string -> string -> option string.
Variables (p : VCloudProvider) (ctx : Context) (method : string)
          (body : option string).

(** One turn of the loop, for a request that can be built. *)
Lemma retryLoop_turn (url : string) (remaining i : nat)
    (resp : option Response) (w : World) :
  newRequestError method url = None ->
  retryLoop newRequestError (S remaining) i resp p ctx method url body w =
  let '(o, w1) := Do ctx (newRequest p method url body) w in
  if retryable o && (i <? maxRetries - 1)%nat then
    retryLoop newRequestError remaining (S i)
      (match o with Failed _ => None | Responded r => Some r end)
      p ctx method url body (Sleep (Z.of_nat (i + 1) * Second) w1)
  else (returned o, w1).
Proof.
  intros Hreq. simpl. rewrite Hreq.
  destruct (Do ctx (newRequest p method url body) w) as [[e|r] w1];
    reflexivity.
Qed.

(** Exactly one of the response and the error is nil. *)
Lemma retryLoop_result (url : string) (remaining i : nat)
    (resp0 : option Response) (w : World) :
  (i + remaining = 3)%nat -> (1 <= remaining)%nat ->
  let res :=
    (retryLoop newRequestError remaining i resp0 p ctx method url body w).1 in
  (exists r, res = (Some r, None)) \/ (exists e, res = (None, Some e)).
Proof.
  revert i resp0 w.
  induction remaining as [|remaining IH]; intros i resp0 w Hi Hrem; [lia|].
  destruct (newRequestError method url) as [cause|] eqn:Hreq.
  { simpl. rewrite Hreq. right. now eexists. }
  rewrite (retryLoop_turn url remaining i resp0 w Hreq).
  destruct (Do ctx (newRequest p method url body) w) as [o w1].
  unfold maxRetries. change (3 - 1)%nat with 2%nat.
  destruct (retryable o && (i <? 2)%nat) eqn:Hre.
  - apply andb_true_iff in Hre as [_ Hlt]. apply Nat.ltb_lt in Hlt.
    apply IH; lia.
  - destruct o as [e|r]; simpl; [right | left]; now eexists.
Qed.

End RequestMore.

(** X1: [Request] hands back either a response and no error, or an
    error and no response; never both, never neither (so no caller
    dereferences a nil response after its check of the error). *)
Theorem Request_response_or_error
    (newRequestError : string -> string -> option string)
    (p : VCloudProvider) (ctx : Context) (method path : string)
    (body : option string) (w : World) :
  let res := (Request newRequestError p ctx method path body w).1 in
  (exists r, res = (Some r, None)) \/ (exists e, res = (None, Some e)).
Proof.
  unfold Request.
  apply (retryLoop_result newRequestError p ctx method body
           (requestURL p path) maxRetries 0 None w); unfold maxRetries; lia.
Qed.

(** The events of a call of [Request] for a request that can be
    built. *)
Lemma Request_shape
    (newRequestError : string -> string -> option string)
    (p : VCloudProvider) (ctx : Context) (method path : string)
    (body : option string) (w : World) :
  newRequestError method (requestURL p path) = None ->
  let req := newRequest p method (requestURL p path) body in
  let evs := since w (Request newRequestError p ctx method path body w).2 in
  evs = [EvDo (clock w) req] \/
  (exists t2, evs = [EvDo (clock w) req; EvSleep (1 * Second); EvDo t2 req]) \/
  (exists t2 t3,
     evs = [EvDo (clock w) req; EvSleep (1 * Second); EvDo t2 req;
            EvSleep (2 * Second); EvDo t3 req]).
Proof.
  intros Hreq req evs. subst evs. unfold Request, maxRetries.
  rewrite (retryLoop_turn _ _ _ _ _ _ _ _ _ w Hreq). fold req.
  pose proof (Do_trace ctx req w) as T1.
  destruct (Do ctx req w) as [o1 w1]. simpl in T1.
  destruct (retryable o1 && _).
  2: { left. now apply since_app. }
  rewrite (retryLoop_turn _ _ _ _ _ _ _ _ _ _ Hreq). fold req.
  pose proof (Do_trace ctx req (Sleep (Z.of_nat (0 + 1) * Second) w1)) as T2.
  destruct (Do ctx req (Sleep (Z.of_nat (0 + 1) * Second) w1)) as [o2 w2].
  simpl in T2. rewrite T1 in T2. rewrite <- !app_assoc in T2. simpl in T2.
  change (Z.of_nat 1) with 1 in T2.
  destruct (retryable o2 && _).
  2: { right. left. eexists. apply since_app. exact T2. }
  rewrite (retryLoop_turn _ _ _ _ _ _ _ _ _ _ Hreq). fold req.
  pose proof (Do_trace ctx req (Sleep (Z.of_nat (1 + 1) * Second) w2)) as T3.
  destruct (Do ctx req (Sleep (Z.of_nat (1 + 1) * Second) w2)) as [o3 w3].
  simpl in T3. rewrite T2 in T3. rewrite <- !app_assoc in T3. simpl in T3.
  change (Z.of_nat 2) with 2 in T3.
  rewrite andb_false_r.
  right. right. eexists _, _. apply since_app. exact T3.
Qed.

(** X2: a call of [Request] without a body whose request can be
    built leaves one of three traces: one attempt; two attempts with
    a sleep of 1s between them; or three attempts with sleeps of 1s
    and 2s.  Every attempt sends the same request, with the provider
    token and the JSON content type as its headers, and no sleep
    follows the last attempt. *)
Theorem Request_trace_shapes
    (newRequestError : string -> string -> option string)
    (p : VCloudProvider) (ctx : Context) (method path : string) (w : World) :
  newRequestError method (requestURL p path) = None ->
  let req :=
    {| Method := method; URL := requestURL p path;
       Header := [("X-Provider-Token", providerToken p);
                  ("Content-Type", "application/json")];
       ReqBody := None |} in
  let evs := since w (Request newRequestError p ctx method path None w).2 in
  evs = [EvDo (clock w) req] \/
  (exists t2, evs = [EvDo (clock w) req; EvSleep (1 * Second); EvDo t2 req]) \/
  (exists t2 t3,
     evs = [EvDo (clock w) req; EvSleep (1 * Second); EvDo t2 req;
            EvSleep (2 * Second); EvDo t3 req]).
Proof. apply Request_shape. Qed.

(** A 503 and then a 200: the second shape. *)
Lemma Request_trace_shapes_witness :
  let w := startWorld [answer 503 "busy"; answer 200 "active"] in
  let req :=
    {| Method := "GET";
       URL := requestURL sampleProvider "/instances/i-1";
       Header := [("X-Provider-Token", "test-token");
                  ("Content-Type", "application/json")];
       ReqBody := None |} in
  let evs :=
    since w (Request noRequestError sampleProvider background "GET"
               "/instances/i-1" None w).2 in
  evs = [EvDo 0 req] \/
  (exists t2, evs = [EvDo 0 req; EvSleep (1 * Second); EvDo t2 req]) \/
  (exists t2 t3,
     evs = [EvDo 0 req; EvSleep (1 * Second); EvDo t2 req;
            EvSleep (2 * Second); EvDo t3 req]).
Proof.
  exact (Request_trace_shapes noRequestError sampleProvider background "GET"
           "/instances/i-1"
           (startWorld [answer 503 "busy"; answer 200 "active"]) eq_refl).
Defined.

(** At least one attempt is made for a request that can be built. *)
Lemma Request_attempts_pos
    (newRequestError : string -> string -> option string)
    (p : VCloudProvider) (ctx : Context) (method path : string)
    (body : option string) (w : World) :
  newRequestError method (requestURL p path) = None ->
  (1 <= attempts
          (since w (Request newRequestError p ctx method path body w).2))%nat.
Proof.
  intros Hreq.
  destruct (Request_shape newRequestError p ctx method path body w Hreq)
    as [->|[[t2 ->]|(t2 & t3 & ->)]]; simpl; lia.
Qed.

(** ** The cache, continued *)

Section CacheMore.

Variable newRequestError : string -> string -> option string.
Variable decodeInstance : string -> string + Instance.

(** Without a fresh entry, [get] is the fetch. *)
Lemma get_miss (c : instanceCache) (ctx : Context) (id : string) (w : World) :
  freshEntry c id (clock w) = None ->
  let fetched :=
    GetInstanceInfo newRequestError decodeInstance (provider c) ctx id w in
  let run := get newRequestError decodeInstance c ctx id w in
  run.1.1 = fetched.1 /\ run.2 = fetched.2.
Proof.
  intros HF fetched run. subst run. rewrite get_unfold, HF.
  destruct (fetchAndStore_spec newRequestError decodeInstance c ctx id w)
    as (Hr & Hw & _). now split.
Qed.

(** A fetch makes at least one attempt when its request can be
    built. *)
Lemma GetInstanceInfo_attempts (p : VCloudProvider) (ctx : Context)
    (id : string) (w : World) :
  newRequestError "GET" (requestURL p ("/instances/" +:+ id)) = None ->
  (1 <= attempts
          (since w
             (GetInstanceInfo newRequestError decodeInstance p ctx id w).2))%nat.
Proof.
  intros Hreq.
  pose proof (Request_attempts_pos newRequestError p ctx "GET"
                ("/instances/" +:+ id) None w Hreq) as H.
  unfold GetInstanceInfo.
  destruct (Request newRequestError p ctx "GET" ("/instances/" +:+ id) None w)
    as [[resp err] w'].
  simpl in H.
  destruct err; [exact H|]. destruct resp as [r|]; [|exact H].
  destruct (StatusCode r =? 404); [exact H|].
  destruct (negb _); [exact H|].
  destruct (decodeInstance _); [exact H|].
  destruct (String.eqb _ _); exact H.
Qed.

(** What [get] does to the keys it was not asked for. *)
Lemma get_frame (c : instanceCache) (ctx : Context) (id k : string)
    (w : World) :
  k <> id ->
  let run := get newRequestError decodeInstance c ctx id w in
  (forall e, cache run.1.2 !! k = Some e -> cache c !! k = Some e) /\
  (forall e, cache c !! k = Some e ->
             Since (clock run.2) (timestamp e) <= ttl e ->
             cache run.1.2 !! k = Some e) /\
  ((size (cache c) < 100)%nat -> cache run.1.2 !! k = cache c !! k).
Proof.
  intros Hk run. subst run. rewrite get_unfold.
  destruct (freshEntry c id (clock w)); [now repeat split|].
  destruct (fetchAndStore_spec newRequestError decodeInstance c ctx id w)
    as (_ & Hw & _ & Hm).
  rewrite Hw.
  destruct (GetInstanceInfo newRequestError decodeInstance (provider c) ctx id w)
    as [[i|err|] w']; simpl in *; try (rewrite Hm; now repeat split).
  rewrite Hm.
  pose proof (map_size_insert id
                {| info := i; timestamp := clock w'; ttl := ttlFor i |}
                (cache c)) as Hsize.
  destruct (Nat.ltb_spec 100
              (size (<[id:={| info := i; timestamp := clock w';
                              ttl := ttlFor i |}]> (cache c)))) as [Hgt|Hle].
  - split; [|split].
    + intros e He. apply cleanup_lookup in He as [He _].
      now rewrite lookup_insert_ne in He.
    + intros e He Hage. apply cleanup_lookup.
      rewrite lookup_insert_ne by congruence.
      split; [assumption | now apply isExpired_false].
    + intros Hlt. exfalso. destruct (cache c !! id); simpl in Hsize; lia.
  - rewrite lookup_insert_ne by congruence. now repeat split.
Qed.

(** The size of the map after [get]. *)
Lemma get_size (c : instanceCache) (ctx : Context) (id : string) (w : World) :
  (size (cache (get newRequestError decodeInstance c ctx id w).1.2)
   <= S (size (cache c)))%nat.
Proof.
  rewrite get_unfold.
  destruct (freshEntry c id (clock w)); [simpl; lia|].
  destruct (fetchAndStore_spec newRequestError decodeInstance c ctx id w)
    as (_ & _ & _ & Hm).
  destruct (GetInstanceInfo newRequestError decodeInstance (provider c) ctx id w)
    as [[i|err|] w']; simpl in *; try (rewrite Hm; lia).
  rewrite Hm.
  pose proof (map_size_insert id
                {| info := i; timestamp := clock w'; ttl := ttlFor i |}
                (cache c)) as Hsize.
  assert (size (<[id:={| info := i; timestamp := clock w';
                         ttl := ttlFor i |}]> (cache c)) <= S (size (cache c)))%nat
    by (destruct (cache c !! id); simpl in Hsize; lia).
  destruct (100 <? _)%nat; [|assumption].
  etransitivity; [apply map_size_filter | assumption].
Qed.

End CacheMore.

(** X3: [invalidate] removes the entry of its key and no other; the
    [get] that follows for that key fetches whatever the entry was:
    it returns what the resolver returns and, when the request can
    be built, makes at least one attempt. *)
Theorem invalidate_then_get
    (newRequestError : string -> string -> option string)
    (decodeInstance : string -> string + Instance)
    (c : instanceCache) (ctx : Context) (id : string) (w : World) :
  let c' := invalidate c id in
  let fetched :=
    GetInstanceInfo newRequestError decodeInstance (provider c) ctx id w in
  let run := get newRequestError decodeInstance c' ctx id w in
  cache c' !! id = None /\
  (forall k, k <> id -> cache c' !! k = cache c !! k) /\
  run.1.1 = fetched.1 /\ run.2 = fetched.2 /\
  (newRequestError "GET" (requestURL (provider c) ("/instances/" +:+ id))
     = None ->
   (1 <= attempts (since w run.2))%nat).
Proof.
  intros c' fetched run.
  destruct (get_miss newRequestError decodeInstance c' ctx id w
              (freshEntry_invalidate c id (clock w))) as [Hr Hw].
  split; [apply lookup_delete_eq|].
  split; [intros k Hk; now apply lookup_delete_ne|].
  split; [exact Hr|]. split; [exact Hw|].
  intros Hreq. subst run. rewrite Hw.
  now apply GetInstanceInfo_attempts.
Qed.

(** A fresh entry is invalidated; the next [get] goes to the network. *)
Lemma invalidate_then_get_witness :
  let w := worldAt (10 * Second) [answer 200 "active"] in
  (1 <= attempts
          (since w
             (get noRequestError sampleDecode (invalidate warmCache "i-1")
                background "i-1" w).2))%nat.
Proof.
  exact (proj2 (proj2 (proj2 (proj2
    (invalidate_then_get noRequestError sampleDecode warmCache background
       "i-1" (worldAt (10 * Second) [answer 200 "active"])))))
    eq_refl).
Defined.

(** X4: [clear] leaves an empty map and the same provider, so that
    after it a [get] for any key fetches: it returns what the
    resolver returns and, when the request can be built, makes at
    least one attempt. *)
Theorem clear_then_get
    (newRequestError : string -> string -> option string)
    (decodeInstance : string -> string + Instance)
    (c : instanceCache) (ctx : Context) (id : string) (w : World) :
  let c' := clear c in
  let fetched :=
    GetInstanceInfo newRequestError decodeInstance (provider c) ctx id w in
  let run := get newRequestError decodeInstance c' ctx id w in
  size (cache c') = 0%nat /\ provider c' = provider c /\
  run.1.1 = fetched.1 /\ run.2 = fetched.2 /\
  (newRequestError "GET" (requestURL (provider c) ("/instances/" +:+ id))
     = None ->
   (1 <= attempts (since w run.2))%nat).
Proof.
  intros c' fetched run.
  assert (HF : freshEntry c' id (clock w) = None)
    by (unfold freshEntry; simpl; now rewrite lookup_empty).
  destruct (get_miss newRequestError decodeInstance c' ctx id w HF) as [Hr Hw].
  split; [apply map_size_empty|]. split; [reflexivity|].
  split; [exact Hr|]. split; [exact Hw|].
  intros Hreq. subst run. rewrite Hw.
  now apply GetInstanceInfo_attempts.
Qed.

(** A cache of 100 fresh entries is cleared. *)
Lemma clear_then_get_witness :
  let c := filledCache 100 0 in
  let w := worldAt (10 * Second) [answer 200 "active"] in
  (1 <= attempts
          (since w
             (get noRequestError sampleDecode (clear c) background "i-1" w).2))%nat.
Proof.
  exact (proj2 (proj2 (proj2 (proj2
    (clear_then_get noRequestError sampleDecode (filledCache 100 0) background
       "i-1" (worldAt (10 * Second) [answer 200 "active"])))))
    eq_refl).
Defined.

(** X5: a [get] for one key neither adds nor changes the entry of
    another key, whatever its outcome; an entry of another key that
    is within its TTL when [get] ends is still there; and while the
    map holds fewer than 100 entries no other key is touched at
    all. *)
Theorem get_other_keys
    (newRequestError : string -> string -> option string)
    (decodeInstance : string -> string + Instance)
    (c : instanceCache) (ctx : Context) (id k : string) (w : World) :
  k <> id ->
  let run := get newRequestError decodeInstance c ctx id w in
  (forall e, cache run.1.2 !! k = Some e -> cache c !! k = Some e) /\
  (forall e, cache c !! k = Some e ->
             Since (clock run.2) (timestamp e) <= ttl e ->
             cache run.1.2 !! k = Some e) /\
  ((size (cache c) < 100)%nat -> cache run.1.2 !! k = cache c !! k).
Proof. apply get_frame. Qed.

(** The entry for "i-1" outlives a failed lookup of another key. *)
Lemma get_other_keys_witness :
  cache (get noRequestError sampleDecode warmCache background "i-2"
           (worldAt (10 * Second) [])).1.2 !! "i-1"
  = cache warmCache !! "i-1".
Proof.
  refine (proj2 (proj2
    (get_other_keys noRequestError sampleDecode warmCache background "i-2"
       "i-1" (worldAt (10 * Second) []) _)) _).
  - discriminate.
  - vm_compute. lia.
Defined.

(** X6: a [get] adds at most one entry to the map. *)
Theorem get_grows_by_one
    (newRequestError : string -> string -> option string)
    (decodeInstance : string -> string + Instance)
    (c : instanceCache) (ctx : Context) (id : string) (w : World) :
  (size (cache (get newRequestError decodeInstance c ctx id w).1.2)
   <= S (size (cache c)))%nat.
Proof. apply get_size. Qed.

(** X7: the threshold of 100 is no bound on the map.  When [get]
    stores a record for a new key and every entry already there is
    within its TTL at that moment, nothing is swept: the map ends
    with one entry more, however many it had. *)
Theorem get_no_eviction_when_fresh
    (newRequestError : string -> string -> option string)
    (decodeInstance : string -> string + Instance)
    (c : instanceCache) (ctx : Context) (id : string) (w w' : World)
    (i : InstanceInfo) :
  cache c !! id = None ->
  GetInstanceInfo newRequestError decodeInstance (provider c) ctx id w
    = (Ok i, w') ->
  (forall k e, cache c !! k = Some e ->
               Since (clock w') (timestamp e) <= ttl e) ->
  let run := get newRequestError decodeInstance c ctx id w in
  size (cache run.1.2) = S (size (cache c)) /\
  forall k e, cache c !! k = Some e -> cache run.1.2 !! k = Some e.
Proof.
  intros Hnone HG Hfresh run. subst run. rewrite get_unfold.
  assert (freshEntry c id (clock w) = None) as ->
    by (unfold freshEntry; now rewrite Hnone).
  unfold fetchAndStore. rewrite HG. simpl.
  assert (Hkeep :
    cleanupOldEntriesLocked (clock w')
      (<[id:={| info := i; timestamp := clock w'; ttl := ttlFor i |}]> (cache c))
    = <[id:={| info := i; timestamp := clock w'; ttl := ttlFor i |}]> (cache c)).
  { unfold cleanupOldEntriesLocked. apply map_filter_id. intros k e He. simpl.
    rewrite lookup_insert in He. case_decide.
    - injection He as <-. apply stored_not_expired.
    - apply isExpired_false. now apply (Hfresh k). }
  rewrite Hkeep.
  assert (Hsame :
    (if (100 <? size (<[id:={| info := i; timestamp := clock w';
                               ttl := ttlFor i |}]> (cache c)))%nat
     then <[id:={| info := i; timestamp := clock w'; ttl := ttlFor i |}]> (cache c)
     else <[id:={| info := i; timestamp := clock w'; ttl := ttlFor i |}]> (cache c))
    = <[id:={| info := i; timestamp := clock w'; ttl := ttlFor i |}]> (cache c))
    by now destruct (100 <? _)%nat.
  rewrite Hsame. split.
  - now apply map_size_insert_None.
  - intros k e He. rewrite lookup_insert_ne; [assumption|]. congruence.
Qed.

(** 100 entries fetched 10s ago, and entry 101. *)
Lemma get_no_eviction_when_fresh_witness :
  size (cache (get noRequestError sampleDecode (filledCache 100 0) background
                 "gone"
                 (worldAt (10 * Second) [answer 404 "Instance not found"])).1.2)
  = 101%nat.
Proof.
  refine (proj1
    (get_no_eviction_when_fresh noRequestError sampleDecode (filledCache 100 0)
       background "gone"
       (worldAt (10 * Second) [answer 404 "Instance not found"])
       (GetInstanceInfo noRequestError sampleDecode sampleProvider background
          "gone" (worldAt (10 * Second) [answer 404 "Instance not found"])).2
       absent _ _ _)).
  - vm_compute. reflexivity.
  - reflexivity.
  - intros k e He.
    apply (elem_of_list_to_map_2 (M := gmap string)) in He.
    apply list_elem_of_fmap in He as (n & [= -> ->] & _).
    vm_compute. discriminate.
Defined.

(** X8: an identifier for which no request can be built costs
    nothing: without a fresh entry [get] returns the error of the
    request's creation, wrapped by the resolver, and leaves the
    cache and the world as they were: no attempt, no sleep. *)
Theorem get_request_not_built
    (newRequestError : string -> string -> option string)
    (decodeInstance : string -> string + Instance)
    (c : instanceCache) (ctx : Context) (id : string) (w : World)
    (cause : string) :
  freshEntry c id (clock w) = None ->
  newRequestError "GET" (requestURL (provider c) ("/instances/" +:+ id))
    = Some cause ->
  get newRequestError decodeInstance c ctx id w
    = (Err (ErrGetInstance id (ErrCreateRequest cause)), c, w).
Proof.
  intros HF Hreq. apply get_fetch_error; [exact HF|].
  apply GetInstanceInfo_request_error with (resp := None).
  unfold Request. simpl. now rewrite Hreq.
Qed.

(** A library that rejects every URL. *)
Lemma get_request_not_built_witness :
  get (fun _ _ => Some "invalid URL escape") sampleDecode emptyCache
    background "%zz" (startWorld [answer 200 "active"])
  = (Err (ErrGetInstance "%zz" (ErrCreateRequest "invalid URL escape")),
     emptyCache, startWorld [answer 200 "active"]).
Proof.
  apply get_request_not_built.
  - vm_compute. reflexivity.
  - reflexivity.
Defined.

(** ** The resolver, continued *)

Section ResolverMore.

Variable newRequestError : string -> string -> option string.
Variable decodeInstance : string -> string + Instance.

(** The records that [GetInstanceInfo] returns. *)
Lemma GetInstanceInfo_builtFor (p : VCloudProvider) (ctx : Context)
    (id : string) (w w' : World) (i : InstanceInfo) :
  GetInstanceInfo newRequestError decodeInstance p ctx id w = (Ok i, w') ->
  builtFor id i.
Proof.
  unfold GetInstanceInfo.
  destruct (Request newRequestError p ctx "GET" ("/instances/" +:+ id) None w)
    as [[resp err] w0].
  destruct err; [discriminate|]. destruct resp as [r|]; [|discriminate].
  destruct (StatusCode r =? 404); [intros [= <- _]; now left|].
  destruct (negb _); [discriminate|].
  destruct (decodeInstance (Body r)) as [cause|inst]; [discriminate|].
  destruct (String.eqb_spec (Status inst) "terminated") as [|Hne];
    [intros [= <- _]; now left|].
  intros [= <- _]. right. exists inst. split; [exact Hne | reflexivity].
Qed.

(** What [Request] returns after three outcomes that call for a
    retry: the last of them. *)
Lemma Request_exhausted (p : VCloudProvider) (ctx : Context)
    (method path : string) (body : option string) (w w1 w2 w3 : World)
    (o1 o2 o3 : Outcome) :
  newRequestError method (requestURL p path) = None ->
  let req := newRequest p method (requestURL p path) body in
  Do ctx req w = (o1, w1) -> retryable o1 = true ->
  Do ctx req (Sleep (1 * Second) w1) = (o2, w2) -> retryable o2 = true ->
  Do ctx req (Sleep (2 * Second) w2) = (o3, w3) ->
  Request newRequestError p ctx method path body w = (returned o3, w3).
Proof.
  intros Hreq req D1 R1 D2 R2 D3.
  apply (Request_policy newRequestError p ctx method body path w _ _ Hreq).
  eapply attempt_retry; [exact D1 | exact R1 | lia |].
  eapply attempt_retry; [exact D2 | exact R2 | lia |].
  apply (attempt_final _ _ _ _ o3 _ D3). now right.
Qed.

(** A record that [get] returns from a map of built entries is built
    for the key asked. *)
Lemma get_builtFor (c c1 : instanceCache) (ctx : Context) (id : string)
    (w w1 : World) (i : InstanceInfo) :
  builtEntries (cache c) ->
  get newRequestError decodeInstance c ctx id w = (Ok i, c1, w1) ->
  builtFor id i.
Proof.
  intros Hc. rewrite get_unfold.
  destruct (freshEntry c id (clock w)) as [entry|] eqn:HF.
  - intros [= <- _ _]. apply freshEntry_Some in HF as [Hin _].
    now apply (Hc id).
  - unfold fetchAndStore.
    destruct (GetInstanceInfo newRequestError decodeInstance (provider c) ctx id w)
      as [[i0|err|] w0] eqn:HG; try discriminate.
    intros [= <- _ _]. now apply GetInstanceInfo_builtFor in HG.
Qed.

Lemma builtEntries_get (c : instanceCache) (ctx : Context) (id : string)
    (w : World) :
  builtEntries (cache c) ->
  builtEntries (cache (get newRequestError decodeInstance c ctx id w).1.2).
Proof.
  intros Hc k e. rewrite get_unfold.
  destruct (freshEntry c id (clock w)); [apply Hc|].
  destruct (fetchAndStore_spec newRequestError decodeInstance c ctx id w)
    as (_ & _ & _ & Hm).
  destruct (GetInstanceInfo newRequestError decodeInstance (provider c) ctx id w)
    as [[i|err|] w'] eqn:HG; simpl in Hm; try (rewrite Hm; apply Hc).
  rewrite Hm. intros Hk.
  assert (Hin : <[id := {| info := i; timestamp := clock w';
                           ttl := ttlFor i |}]> (cache c) !! k = Some e).
  { destruct (100 <? _)%nat; [|assumption].
    now apply cleanup_lookup in Hk as [Hk _]. }
  rewrite lookup_insert in Hin. case_decide.
  - injection Hin as <-. subst k. simpl.
    now apply GetInstanceInfo_builtFor in HG.
  - now apply (Hc k).
Qed.

(** After a [get] that returned a record, a [get] for the same key
    within the TTL of the entry is served from the map. *)
Lemma get_then_hit (c c1 : instanceCache) (ctx : Context) (id : string)
    (w w1 : World) (i : InstanceInfo) :
  get newRequestError decodeInstance c ctx id w = (Ok i, c1, w1) ->
  exists entry,
    cache c1 !! id = Some entry /\ info entry = i /\
    forall ctx' w2,
      Since (clock w2) (timestamp entry) <= ttl entry ->
      get newRequestError decodeInstance c1 ctx' id w2 = (Ok i, c1, w2).
Proof.
  rewrite get_unfold.
  assert (Hit : forall entry ctx' w2,
    cache c1 !! id = Some entry ->
    Since (clock w2) (timestamp entry) <= ttl entry ->
    get newRequestError decodeInstance c1 ctx' id w2
      = (Ok (info entry), c1, w2)).
  { intros entry ctx' w2 Hin Hage. rewrite get_unfold.
    assert (freshEntry c1 id (clock w2) = Some entry) as ->; [|reflexivity].
    apply freshEntry_Some. split; [assumption|]. now apply isExpired_false. }
  destruct (freshEntry c id (clock w)) as [entry|] eqn:HF.
  - intros [= <- <- <-]. apply freshEntry_Some in HF as [Hin _].
    exists entry. repeat split; [assumption|].
    intros ctx' w2. now apply Hit.
  - intros E. apply fetchAndStore_stored in E.
    eexists. split; [exact E|]. split; [reflexivity|].
    intros ctx' w2 Hage. now apply (Hit _ ctx' w2 E).
Qed.

End ResolverMore.



(** X10: when all three attempts call for a retry, the resolver
    reports the last of them: a failed third call as the error of
    the request layer, wrapped; a third response with a status of
    500 or more as an unexpected status, with that status and body.
    The first two outcomes are lost. *)
Theorem GetInstanceInfo_exhausted
    (newRequestError : string -> string -> option string)
    (decodeInstance : string -> string + Instance)
    (p : VCloudProvider) (ctx : Context) (id : string)
    (w w1 w2 w3 : World) (o1 o2 o3 : Outcome) :
  newRequestError "GET" (requestURL p ("/instances/" +:+ id)) = None ->
  let req := newRequest p "GET" (requestURL p ("/instances/" +:+ id)) None in
  Do ctx req w = (o1, w1) -> retryable o1 = true ->
  Do ctx req (Sleep (1 * Second) w1) = (o2, w2) -> retryable o2 = true ->
  Do ctx req (Sleep (2 * Second) w2) = (o3, w3) -> retryable o3 = true ->
  GetInstanceInfo newRequestError decodeInstance p ctx id w =
    (match o3 with
     | Failed e => Err (ErrGetInstance id e)
     | Responded r => Err (ErrUnexpectedStatus (StatusCode r) (Body r))
     end, w3).
Proof.
  intros Hreq req D1 R1 D2 R2 D3 R3.
  pose proof (Request_exhausted newRequestError p ctx "GET"
                ("/instances/" +:+ id) None w w1 w2 w3 o1 o2 o3 Hreq
                D1 R1 D2 R2 D3) as HReq.
  unfold GetInstanceInfo. rewrite HReq.
  destruct o3 as [e|r]; [reflexivity|]. simpl in R3 |- *.
  apply Z.leb_le in R3.
  destruct (Z.eqb_spec (StatusCode r) 404); [lia|].
  destruct (Z.eqb_spec (StatusCode r) 200); [lia|]. reflexivity.
Qed.

(** A 503, a refused connection and a 502. *)
Lemma GetInstanceInfo_exhausted_witness :
  (GetInstanceInfo noRequestError sampleDecode sampleProvider background
     "i-1" (startWorld [answer 503 "busy"; refused; answer 502 "bad gateway"])).1
  = Err (ErrUnexpectedStatus 502 "bad gateway").
Proof.
  erewrite (GetInstanceInfo_exhausted noRequestError sampleDecode
              sampleProvider background "i-1"
              (startWorld [answer 503 "busy"; refused; answer 502 "bad gateway"])
              _ _ _ _ _ (Responded {| StatusCode := 502; Body := "bad gateway" |})
              eq_refl);
    reflexivity.
Defined.

(** X11: every record in the map is absent or complete for its own
    key.  This holds of a new cache, and [get], [invalidate] and
    [clear] keep it. *)
Theorem builtEntries_invariant
    (newRequestError : string -> string -> option string)
    (decodeInstance : string -> string + Instance)
    (p : VCloudProvider) :
  builtEntries (cache (newInstanceCache p)) /\
  forall c : instanceCache,
    builtEntries (cache c) ->
    (forall ctx id w,
       builtEntries
         (cache (get newRequestError decodeInstance c ctx id w).1.2)) /\
    (forall id, builtEntries (cache (invalidate c id))) /\
    builtEntries (cache (clear c)).
Proof.
  split.
  - intros k e. simpl. now rewrite lookup_empty.
  - intros c Hc. split; [|split].
    + intros ctx id w. now apply builtEntries_get.
    + intros id k e. simpl. rewrite lookup_delete.
      case_decide; [discriminate | apply Hc].
    + intros k e. simpl. now rewrite lookup_empty.
Qed.

(** The map after a first fetch into a new cache. *)
Lemma builtEntries_invariant_witness :
  builtEntries
    (cache (get noRequestError sampleDecode (newInstanceCache sampleProvider)
              background "i-1" (startWorld [answer 200 "active"])).1.2).
Proof.
  destruct (builtEntries_invariant noRequestError sampleDecode sampleProvider)
    as [Hnew Hkeep].
  exact (proj1 (Hkeep _ Hnew) background "i-1"
           (startWorld [answer 200 "active"])).
Defined.

(** ** The node operations *)

Section InstancesMore.
Import InstancesV2.

Variable newRequestError : string -> string -> option string.
Variable decodeInstance : string -> string + Instance.

(** The three operations in terms of the [get] they make. *)
Lemma operations_get (i : VCloudInstances) (ctx : Context) (node : Node)
    (w : World) :
  getProviderID node <> "" ->
  let run :=
    get newRequestError decodeInstance (instCache i) ctx (getProviderID node) w in
  let i' := {| instProvider := instProvider i; instCache := run.1.2 |} in
  InstanceExists newRequestError decodeInstance i ctx node w =
    (match run.1.1 with
     | Ok inf => Done (Exists inf)
     | Err e => Fail (ErrLookup e)
     | NilDeref => Crash
     end, i', run.2) /\
  InstanceShutdown newRequestError decodeInstance i ctx node w =
    (match run.1.1 with
     | Ok inf => if Exists inf then Done (Shutdown inf) else Fail InstanceNotFound
     | Err e => Fail (ErrLookup e)
     | NilDeref => Crash
     end, i', run.2) /\
  InstanceMetadata newRequestError decodeInstance i ctx node w =
    (match run.1.1 with
     | Ok inf =>
         if Exists inf then Done (InfoMetadata inf) else Fail InstanceNotFound
     | Err e => Fail (ErrLookup e)
     | NilDeref => Crash
     end, i', run.2).
Proof.
  intros Hne run i'. subst run i'.
  unfold InstanceExists, InstanceShutdown, InstanceMetadata.
  apply String.eqb_neq in Hne. rewrite Hne.
  destruct (get newRequestError decodeInstance (instCache i) ctx
              (getProviderID node) w) as [[[inf|e|] c1] w1]; simpl;
    try (repeat split; reflexivity).
  destruct (Exists inf); repeat split; reflexivity.
Qed.

End InstancesMore.

(** X12: a node whose identifier comes out empty (no provider ID and
    no name, or a provider ID that ends with its only "://") is
    refused by all three operations before the cache is consulted:
    the error names the node, and cache and world stay as they
    were. *)
Theorem operations_empty_identifier
    (newRequestError : string -> string -> option string)
    (decodeInstance : string -> string + Instance)
    (i : VCloudInstances) (ctx : Context) (node : Node) (w : World) :
  getProviderID node = "" ->
  InstancesV2.InstanceExists newRequestError decodeInstance i ctx node w
    = (Fail (ErrEmptyProviderID (Name node)), i, w) /\
  InstancesV2.InstanceShutdown newRequestError decodeInstance i ctx node w
    = (Fail (ErrEmptyProviderID (Name node)), i, w) /\
  InstancesV2.InstanceMetadata newRequestError decodeInstance i ctx node w
    = (Fail (ErrEmptyProviderID (Name node)), i, w).
Proof.
  intros He.
  unfold InstancesV2.InstanceExists, InstancesV2.InstanceShutdown,
    InstancesV2.InstanceMetadata.
  rewrite He. now repeat split.
Qed.

(** The provider ID of the scheme alone. *)
Lemma operations_empty_identifier_witness :
  let i := InstancesV2.NewVCloudInstances sampleProvider in
  let node := {| Name := "node-1"; SpecProviderID := "vcloud://" |} in
  InstancesV2.InstanceExists noRequestError sampleDecode i background node
    (startWorld [answer 200 "active"])
  = (Fail (ErrEmptyProviderID "node-1"), i, startWorld [answer 200 "active"]).
Proof.
  exact (proj1 (operations_empty_identifier noRequestError sampleDecode
                  (InstancesV2.NewVCloudInstances sampleProvider) background
                  {| Name := "node-1"; SpecProviderID := "vcloud://" |}
                  (startWorld [answer 200 "active"]) eq_refl)).
Defined.

(** X13: for an instance that the API reports with a 404 the three
    operations differ: [InstanceExists] answers false without an
    error, [InstanceShutdown] and [InstanceMetadata] answer with the
    error [InstanceNotFound].  Each of them leaves the absent record
    in the map, with the TTL of 5 seconds. *)
Theorem operations_instance_gone
    (newRequestError : string -> string -> option string)
    (decodeInstance : string -> string + Instance)
    (i : VCloudInstances) (ctx : Context) (node : Node) (w w' : World)
    (r : Response) :
  let id := getProviderID node in
  id <> "" ->
  freshEntry (instCache i) id (clock w) = None ->
  Request newRequestError (provider (instCache i)) ctx "GET"
    ("/instances/" +:+ id) None w = ((Some r, None), w') ->
  StatusCode r = 404 ->
  exists i',
    cache (instCache i') !! id =
      Some {| info := absent; timestamp := clock w'; ttl := 5 * Second |} /\
    InstancesV2.InstanceExists newRequestError decodeInstance i ctx node w
      = (Done false, i', w') /\
    InstancesV2.InstanceShutdown newRequestError decodeInstance i ctx node w
      = (Fail InstanceNotFound, i', w') /\
    InstancesV2.InstanceMetadata newRequestError decodeInstance i ctx node w
      = (Fail InstanceNotFound, i', w').
Proof.
  intros id Hne HF HReq H404.
  assert (HG : GetInstanceInfo newRequestError decodeInstance
                 (provider (instCache i)) ctx id w = (Ok absent, w')).
  { unfold GetInstanceInfo. rewrite HReq, H404. reflexivity. }
  destruct (operations_get newRequestError decodeInstance i ctx node w Hne)
    as (HE & HS & HM).
  fold id in HE, HS, HM.
  assert (Hget : exists c1,
    get newRequestError decodeInstance (instCache i) ctx id w
      = (Ok absent, c1, w')).
  { rewrite get_unfold, HF. unfold fetchAndStore. rewrite HG.
    now eexists. }
  destruct Hget as [c1 Hget].
  pose proof Hget as Hstored. rewrite get_unfold, HF in Hstored.
  apply fetchAndStore_stored in Hstored.
  rewrite Hget in HE, HS, HM. simpl in HE, HS, HM.
  exists {| instProvider := instProvider i; instCache := c1 |}.
  split; [exact Hstored|]. now repeat split.
Qed.

(** The instance "not-found" of the test server. *)
Lemma operations_instance_gone_witness :
  exists i',
    cache (instCache i') !! "not-found" =
      Some {| info := absent; timestamp := 1000000; ttl := 5 * Second |} /\
    InstancesV2.InstanceExists noRequestError sampleDecode
      (InstancesV2.NewVCloudInstances sampleProvider) background
      {| Name := "node-1"; SpecProviderID := "vcloud://not-found" |}
      (startWorld [answer 404 "Instance not found"])
    = (Done false, i',
       (Request noRequestError sampleProvider background "GET"
          "/instances/not-found" None
          (startWorld [answer 404 "Instance not found"])).2).
Proof.
  destruct (operations_instance_gone noRequestError sampleDecode
              (InstancesV2.NewVCloudInstances sampleProvider) background
              {| Name := "node-1"; SpecProviderID := "vcloud://not-found" |}
              (startWorld [answer 404 "Instance not found"])
              (Request noRequestError sampleProvider background "GET"
                 "/instances/not-found" None
                 (startWorld [answer 404 "Instance not found"])).2
              {| StatusCode := 404; Body := "Instance not found" |})
    as (i' & Hc & HE & _).
  - vm_compute. discriminate.
  - vm_compute. reflexivity.
  - reflexivity.
  - reflexivity.
  - exists i'. split; [exact Hc | exact HE].
Defined.

(** X14: the three operations share one fetch.  Once [InstanceExists]
    has answered for a node, every operation for that node made
    while the entry it left is within its TTL answers from that
    entry and leaves cache and world untouched: [InstanceExists]
    repeats its answer; [InstanceShutdown] and [InstanceMetadata]
    return the flag and the metadata of the entry, or
    [InstanceNotFound] when the answer was false. *)
Theorem operations_share_fetch
    (newRequestError : string -> string -> option string)
    (decodeInstance : string -> string + Instance)
    (i i1 : VCloudInstances) (ctx : Context) (node : Node) (w w1 : World)
    (b : bool) :
  InstancesV2.InstanceExists newRequestError decodeInstance i ctx node w
    = (Done b, i1, w1) ->
  exists entry,
    cache (instCache i1) !! getProviderID node = Some entry /\
    Exists (info entry) = b /\
    forall ctx' w2,
      Since (clock w2) (timestamp entry) <= ttl entry ->
      InstancesV2.InstanceExists newRequestError decodeInstance i1 ctx' node w2
        = (Done b, i1, w2) /\
      InstancesV2.InstanceShutdown newRequestError decodeInstance i1 ctx' node w2
        = (if b then Done (Shutdown (info entry)) else Fail InstanceNotFound,
           i1, w2) /\
      InstancesV2.InstanceMetadata newRequestError decodeInstance i1 ctx' node w2
        = (if b then Done (InfoMetadata (info entry))
           else Fail InstanceNotFound, i1, w2).
Proof.
  intros HE.
  destruct (String.eqb_spec (getProviderID node) "") as [He|Hne].
  { unfold InstancesV2.InstanceExists in HE. rewrite He in HE.
    discriminate HE. }
  destruct (operations_get newRequestError decodeInstance i ctx node w Hne)
    as (HE' & _).
  rewrite HE' in HE. clear HE'.
  destruct (get newRequestError decodeInstance (instCache i) ctx
              (getProviderID node) w) as [[[inf|e|] c1] w0] eqn:Hget;
    simpl in HE; try discriminate.
  injection HE as <- <- <-.
  destruct (get_then_hit newRequestError decodeInstance _ _ _ _ _ _ _ Hget)
    as (entry & Hin & Hinfo & Hhit).
  exists entry. split; [exact Hin|]. split; [now rewrite Hinfo|].
  intros ctx' w2 Hage.
  destruct (operations_get newRequestError decodeInstance
              {| instProvider := instProvider i; instCache := c1 |}
              ctx' node w2 Hne) as (H1 & H2 & H3).
  simpl in H1, H2, H3.
  rewrite (Hhit ctx' w2 Hage) in H1, H2, H3. simpl in H1, H2, H3.
  rewrite Hinfo. now repeat split.
Qed.

(** An existence check, and the checks that follow within 30s. *)
Lemma operations_share_fetch_witness :
  let run :=
    InstancesV2.InstanceExists noRequestError sampleDecode
      (InstancesV2.NewVCloudInstances sampleProvider) background sampleNode
      (startWorld [answer 200 "active"]) in
  exists entry,
    cache (instCache run.1.2) !! "i-1" = Some entry /\
    Exists (info entry) = true /\
    forall ctx' w2,
      Since (clock w2) (timestamp entry) <= ttl entry ->
      InstancesV2.InstanceShutdown noRequestError sampleDecode run.1.2 ctx'
        sampleNode w2
      = (Done (Shutdown (info entry)), run.1.2, w2).
Proof.
  intros run.
  destruct (operations_share_fetch noRequestError sampleDecode
              (InstancesV2.NewVCloudInstances sampleProvider) run.1.2
              background sampleNode (startWorld [answer 200 "active"])
              run.2 true eq_refl)
    as (entry & Hin & Hex & Hall).
  exists entry. split; [exact Hin|]. split; [exact Hex|].
  intros ctx' w2 Hage. exact (proj1 (proj2 (Hall ctx' w2 Hage))).
Defined.

(** X15: on a cache that only these operations have filled,
    [InstanceMetadata] never returns nil metadata without an error:
    what it returns carries the node's identifier as provider ID and
    exactly one address, of type internal IP. *)
Theorem InstanceMetadata_not_nil
    (newRequestError : string -> string -> option string)
    (decodeInstance : string -> string + Instance)
    (i i1 : VCloudInstances) (ctx : Context) (node : Node) (w w1 : World)
    (md : option InstanceMetadata) :
  builtEntries (cache (instCache i)) ->
  InstancesV2.InstanceMetadata newRequestError decodeInstance i ctx node w
    = (Done md, i1, w1) ->
  builtEntries (cache (instCache i1)) /\
  exists m ip,
    md = Some m /\ ProviderID m = getProviderID node /\
    NodeAddresses m = [{| AddrType := NodeInternalIP; Address := ip |}].
Proof.
  intros Hb HM.
  destruct (String.eqb_spec (getProviderID node) "") as [He|Hne].
  { unfold InstancesV2.InstanceMetadata in HM. rewrite He in HM.
    discriminate HM. }
  destruct (operations_get newRequestError decodeInstance i ctx node w Hne)
    as (_ & _ & HM').
  rewrite HM' in HM. clear HM'.
  pose proof (builtEntries_get newRequestError decodeInstance (instCache i)
                ctx (getProviderID node) w Hb) as Hb1.
  destruct (get newRequestError decodeInstance (instCache i) ctx
              (getProviderID node) w) as [[[inf|e|] c1] w0] eqn:Hget;
    simpl in HM, Hb1; try discriminate.
  apply (get_builtFor newRequestError decodeInstance _ _ _ _ _ _ _ Hb) in Hget.
  destruct (Exists inf) eqn:Hex; [|discriminate].
  injection HM as <- <- <-. split; [exact Hb1|].
  destruct Hget as [->|(inst & _ & ->)]; [discriminate Hex|].
  simpl. now eexists _, _.
Qed.

(** The metadata of a running instance, from a new cache. *)
Lemma InstanceMetadata_not_nil_witness :
  let run :=
    InstancesV2.InstanceMetadata noRequestError sampleDecode
      (InstancesV2.NewVCloudInstances sampleProvider) background sampleNode
      (startWorld [answer 200 "active"]) in
  exists m ip,
    run.1.1 = Done (Some m) /\ ProviderID m = "i-1" /\
    NodeAddresses m = [{| AddrType := NodeInternalIP; Address := ip |}].
Proof.
  intros run.
  edestruct (InstanceMetadata_not_nil noRequestError sampleDecode
               (InstancesV2.NewVCloudInstances sampleProvider) run.1.2
               background sampleNode (startWorld [answer 200 "active"]) run.2)
    as (_ & m & ip & Hm & Hp & Ha).
  - intros k e He. vm_compute in He. discriminate He.
  - reflexivity.
  - exists m, ip. split; [|split; assumption].
    rewrite <- Hm. reflexivity.
Defined.

(** ** The URL of a request *)

(** X16: every URL that [Request] builds is scoped to a cluster: it
    holds "/clusters/".  A management URL that already holds it is
    extended by the path alone; any other is extended by
    "/clusters/", the cluster ID and the path. *)
Theorem requestURL_cluster_scoped (p : VCloudProvider) (path : string) :
  GoStrings.Contains (requestURL p path) "/clusters/" = true /\
  requestURL p path =
    (if GoStrings.Contains (mgmtURL p) "/clusters/" then mgmtURL p
     else mgmtURL p +:+ "/clusters/" +:+ clusterID p) +:+ path.
Proof.
  assert (Heq : requestURL p path =
    (if GoStrings.Contains (mgmtURL p) "/clusters/" then mgmtURL p
     else mgmtURL p +:+ "/clusters/" +:+ clusterID p) +:+ path).
  { unfold requestURL.
    destruct (GoStrings.Contains (mgmtURL p) "/clusters/"); simpl;
      (destruct (String.eqb_spec path "") as [->|_];
       [now rewrite GoStringsFacts.app_nil_r | reflexivity]). }
  split; [|exact Heq]. rewrite Heq.
  apply GoStringsFacts.Contains_spec.
  destruct (GoStrings.Contains (mgmtURL p) "/clusters/") eqn:HC.
  - apply GoStringsFacts.Contains_spec in HC as (a & b & ->).
    exists a, (b +:+ path). now rewrite !GoStringsFacts.app_assoc.
  - exists (mgmtURL p), (clusterID p +:+ path).
    now rewrite !GoStringsFacts.app_assoc.
Qed.

(** ** Configuration *)

Section ConfigFacts.

Variable TrimSpace : string -> string.
Variable EqualFold : string -> string -> bool.
Variable uuidParseError : string -> option string.
Variable urlParseError : string -> option string.

Lemma scanConfig_app (pre post : list string) :
  scanConfig TrimSpace EqualFold (pre ++ post) =
  fold_left (configLine TrimSpace EqualFold) post
    (scanConfig TrimSpace EqualFold pre).
Proof. unfold scanConfig. apply fold_left_app. Qed.



(** What [validateConfig] accepts. *)
Lemma validateConfig_None (cfg : VCloudConfig) :
  validateConfig uuidParseError urlParseError (Some cfg) = None <->
  CfgClusterID cfg <> "" /\ CfgClusterName cfg <> "" /\
  CfgMgmtURL cfg <> "" /\ CfgProviderToken cfg <> "" /\
  uuidParseError (CfgClusterID cfg) = None /\
  urlParseError (CfgMgmtURL cfg) = None.
Proof.
  unfold validateConfig.
  destruct (String.eqb_spec (CfgClusterID cfg) "");
    [split; [discriminate | intros (? & _); contradiction]|].
  destruct (String.eqb_spec (CfgClusterName cfg) "");
    [split; [discriminate | intros (_ & ? & _); contradiction]|].
  destruct (String.eqb_spec (CfgMgmtURL cfg) "");
    [split; [discriminate | intros (_ & _ & ? & _); contradiction]|].
  destruct (String.eqb_spec (CfgProviderToken cfg) "");
    [split; [discriminate | intros (_ & _ & _ & ? & _); contradiction]|].
  destruct (uuidParseError (CfgClusterID cfg));
    [split; [discriminate | intros (_ & _ & _ & _ & ? & _); discriminate]|].
  destruct (urlParseError (CfgMgmtURL cfg));
    [split; [discriminate | intros (_ & _ & _ & _ & _ & ?); discriminate]|].
  now repeat split.
Qed.

End ConfigFacts.

(** X17: [validateConfig] accepts a configuration exactly when its
    four fields are non-empty, the cluster ID parses as a UUID and
    the management URL parses as a URL. *)
Theorem validateConfig_accepts
    (uuidParseError urlParseError : string -> option string)
    (cfg : VCloudConfig) :
  validateConfig uuidParseError urlParseError (Some cfg) = None <->
  CfgClusterID cfg <> "" /\ CfgClusterName cfg <> "" /\
  CfgMgmtURL cfg <> "" /\ CfgProviderToken cfg <> "" /\
  uuidParseError (CfgClusterID cfg) = None /\
  urlParseError (CfgMgmtURL cfg) = None.
Proof. apply validateConfig_None. Qed.

(** X18: a provider that [NewVCloudProvider] returns has a cluster ID
    ([HasClusterID] is true), a cluster name, a management URL and a
    token, none of them empty; its cluster ID parsed as a UUID and
    its URL as a URL; it took its four fields from the file, whose
    scan ended without an error; and its instances interface starts
    with an empty cache that holds the same provider. *)
Theorem NewVCloudProvider_valid
    (TrimSpace : string -> string) (EqualFold : string -> string -> bool)
    (uuidParseError urlParseError : string -> option string)
    (config : option Reader) (p : VCloudProvider) (i : VCloudInstances) :
  NewVCloudProvider TrimSpace EqualFold uuidParseError urlParseError config
    = inr (p, i) ->
  HasClusterID p = true /\ clusterName p <> "" /\ mgmtURL p <> "" /\
  providerToken p <> "" /\
  uuidParseError (clusterID p) = None /\ urlParseError (mgmtURL p) = None /\
  (exists r, config = Some r /\ scanErr r = None /\
     (scanConfig TrimSpace EqualFold (scanned r)).1 =
       {| CfgClusterID := clusterID p; CfgClusterName := clusterName p;
          CfgMgmtURL := mgmtURL p; CfgProviderToken := providerToken p |}) /\
  instProvider i = p /\ provider (instCache i) = p /\
  size (cache (instCache i)) = 0%nat.
Proof.
  unfold NewVCloudProvider, readConfig.
  destruct config as [r|]; [|discriminate].
  destruct (scanConfig TrimSpace EqualFold (scanned r)) as [cfg flag] eqn:HS.
  destruct (scanErr r) eqn:HE; [discriminate|].
  destruct (validateConfig uuidParseError urlParseError (Some cfg)) eqn:HV;
    [discriminate|].
  apply validateConfig_None in HV as (H1 & H2 & H3 & H4 & H5 & H6).
  intros [= <- <-]. unfold HasClusterID. simpl.
  apply String.eqb_neq in H1 as H1'. rewrite H1'.
  repeat split; try assumption.
  - exists r. split; [reflexivity|]. split; [assumption|].
    rewrite HS. now destruct cfg.
Qed.

(** The sample file. *)
Lemma NewVCloudProvider_valid_witness :
  HasClusterID
    {| clusterName := "test-cluster";
       clusterID := "d73c6df2-f7fe-4f7c-bf70-9f94cce26430";
       mgmtURL := "https://api.vcloud.example.com/?a=b";
       providerToken := "test-token" |} = true.
Proof.
  refine (proj1 (NewVCloudProvider_valid sampleTrim sampleFold noParseError
            noParseError (Some sampleFile) _ _ _)).
  reflexivity.
Defined.



(** X20: the loop of [readConfig] skips blank lines and comment lines
    (a trimmed line that is empty or begins with "#" or ";").  Among
    the lines that the scanner yields, such a line changes neither
    the configuration read so far nor the section the loop is in: the
    loop ends in the same state with it as without it, and two scans
    that yield the same lines but for such a line, and end alike,
    make [readConfig] return the same. *)
Theorem readConfig_ignores_comments
    (TrimSpace : string -> string) (EqualFold : string -> string -> bool)
    (pre post : list string) (text : string) (err : option string) :
  isComment (TrimSpace text) = true ->
  scanConfig TrimSpace EqualFold (pre ++ text :: post)
  = scanConfig TrimSpace EqualFold (pre ++ post) /\
  readConfig TrimSpace EqualFold
    (Some {| scanned := pre ++ text :: post; scanErr := err |})
  = readConfig TrimSpace EqualFold
      (Some {| scanned := pre ++ post; scanErr := err |}).
Proof.
  intros Hc.
  assert (Hskip : forall st, configLine TrimSpace EqualFold st text = st).
  { intros [cfg flag]. unfold configLine. unfold isComment in Hc.
    now rewrite Hc. }
  assert (HS : scanConfig TrimSpace EqualFold (pre ++ text :: post)
               = scanConfig TrimSpace EqualFold (pre ++ post)).
  { rewrite !scanConfig_app. simpl. now rewrite Hskip. }
  split; [exact HS|].
  unfold readConfig. cbn [scanned scanErr]. now rewrite HS.
Qed.

(** A comment between two assignments. *)
Lemma readConfig_ignores_comments_witness :
  readConfig sampleTrim sampleFold
    (Some {| scanned :=
               ["[vCloud]"; "CLUSTER_ID = abc"] ++
               "  ; the name follows" :: ["CLUSTER_NAME = test-cluster"];
             scanErr := None |})
  = readConfig sampleTrim sampleFold
      (Some {| scanned :=
                 ["[vCloud]"; "CLUSTER_ID = abc"] ++
                 ["CLUSTER_NAME = test-cluster"];
               scanErr := None |}).
Proof.
  refine (proj2 (readConfig_ignores_comments sampleTrim sampleFold
            ["[vCloud]"; "CLUSTER_ID = abc"] ["CLUSTER_NAME = test-cluster"]
            "  ; the name follows" None _)).
  reflexivity.
Defined.

(** ** Separators of one character *)

Section SingleSeparator.
Import GoStrings GoStringsFacts.

Variable ch : ascii.

(** The first instance of a separator of one character is the one
    after a text that holds none. *)
Lemma Cut_single (a b : string) :
  Cut a (String ch "") = None ->
  Cut (a +:+ String ch "" +:+ b) (String ch "") = Some (a, b).
Proof.
  induction a as [|c a IH].
  - intros _. rewrite app_nil_l, app_cons, app_nil_l, Cut_cons. simpl.
    now rewrite Ascii.eqb_refl.
  - rewrite Cut_cons. simpl CutPrefix.
    destruct (Ascii.eqb c ch) eqn:Ec; [discriminate|].
    destruct (Cut a (String ch "")) as [[? ?]|]; [discriminate|].
    intros _. rewrite app_cons, Cut_cons. simpl CutPrefix. rewrite Ec.
    now rewrite (IH eq_refl).
Qed.

(** The first part that [Split] yields. *)
Lemma Split_head (s sep : string) :
  nth 0 (Split s sep) "" =
  match Cut s sep with
  | Some (before, _) => before
  | None => s
  end.
Proof.
  unfold Split. destruct s as [|c s]; simpl String.length.
  - simpl. destruct sep; reflexivity.
  - cbn [splitN]. destruct (Cut (String c s) sep) as [[a b]|]; reflexivity.
Qed.

End SingleSeparator.

(** X21: in the section vCloud a line that is no comment and no
    header and holds "=" is split at its first "=" only: the key is
    the trimmed text before it, the value the trimmed text after it,
    further "=" included.  The field that the key names takes the
    value, the other fields and the section stay; a key that names
    no field changes nothing. *)
Theorem configLine_assignment
    (TrimSpace : string -> string) (EqualFold : string -> string -> bool)
    (cfg : VCloudConfig) (text k v : string) :
  isComment (TrimSpace text) = false ->
  isHeader (TrimSpace text) = false ->
  TrimSpace text = k +:+ "=" +:+ v ->
  GoStrings.Contains k "=" = false ->
  let key := TrimSpace k in
  let value := TrimSpace v in
  let st := configLine TrimSpace EqualFold (cfg, true) text in
  st.2 = true /\
  CfgClusterID st.1 =
    (if String.eqb key "CLUSTER_ID" then value else CfgClusterID cfg) /\
  CfgClusterName st.1 =
    (if String.eqb key "CLUSTER_NAME" then value else CfgClusterName cfg) /\
  CfgMgmtURL st.1 =
    (if String.eqb key "MGMT_URL" then value else CfgMgmtURL cfg) /\
  CfgProviderToken st.1 =
    (if String.eqb key "PROVIDER_TOKEN" then value else CfgProviderToken cfg).
Proof.
  intros Hc Hh Hline Hk key value st. subst st.
  unfold configLine. unfold isComment in Hc. unfold isHeader in Hh.
  rewrite Hc, Hh.
  apply Contains_false in Hk.
  pose proof (Cut_single "=" k v Hk) as HCut. rewrite <- Hline in HCut.
  assert (HC : GoStrings.Contains (TrimSpace text) "=" = true)
    by (unfold GoStrings.Contains; now rewrite HCut).
  rewrite HC. simpl andb.
  assert (HS : SplitN2 (TrimSpace text) "=" = [k; v])
    by (unfold SplitN2; simpl; now rewrite HCut).
  rewrite HS. simpl. fold key value.
  destruct (String.eqb_spec key "CLUSTER_ID") as [->|_]; [now repeat split|].
  destruct (String.eqb_spec key "CLUSTER_NAME") as [->|_]; [now repeat split|].
  destruct (String.eqb_spec key "MGMT_URL") as [->|_]; [now repeat split|].
  destruct (String.eqb_spec key "PROVIDER_TOKEN") as [->|_]; now repeat split.
Qed.

(** A URL with a query. *)
Lemma configLine_assignment_witness :
  CfgMgmtURL
    (configLine sampleTrim sampleFold (emptyConfig, true)
       "MGMT_URL = https://api.vcloud.example.com/?a=b").1
  = "https://api.vcloud.example.com/?a=b".
Proof.
  refine (proj1 (proj2 (proj2 (proj2
    (configLine_assignment sampleTrim sampleFold emptyConfig
       "MGMT_URL = https://api.vcloud.example.com/?a=b"
       "MGMT_URL " " https://api.vcloud.example.com/?a=b" _ _ _ _))))).
  - reflexivity.
  - reflexivity.
  - reflexivity.
  - reflexivity.
Defined.

(** ** Load balancers *)

(** X22: the name of a load balancer is made of the cluster name,
    the text of the service UID before its first "-" (the whole UID
    when it holds none) and the service name.  The namespace is no
    part of it: two services of the same name whose UIDs begin with
    the same segment get the same name. *)
Theorem GetLoadBalancerName_segment (p : VCloudProvider) :
  (forall (service : Service) (seg rest : string),
     GoStrings.Contains seg "-" = false ->
     SvcUID service = seg +:+ "-" +:+ rest ->
     GetLoadBalancerName p service =
       clusterName p +:+ "-ingress-" +:+ seg +:+ "-" +:+ SvcName service) /\
  (forall service : Service,
     GoStrings.Contains (SvcUID service) "-" = false ->
     GetLoadBalancerName p service =
       clusterName p +:+ "-ingress-" +:+ SvcUID service +:+ "-" +:+
       SvcName service) /\
  (forall (s1 s2 : Service) (seg r1 r2 : string),
     GoStrings.Contains seg "-" = false ->
     SvcUID s1 = seg +:+ "-" +:+ r1 -> SvcUID s2 = seg +:+ "-" +:+ r2 ->
     SvcName s1 = SvcName s2 ->
     GetLoadBalancerName p s1 = GetLoadBalancerName p s2).
Proof.
  assert (H1 : forall (service : Service) (seg rest : string),
     GoStrings.Contains seg "-" = false ->
     SvcUID service = seg +:+ "-" +:+ rest ->
     GetLoadBalancerName p service =
       clusterName p +:+ "-ingress-" +:+ seg +:+ "-" +:+ SvcName service).
  { intros service seg rest Hseg HU. unfold GetLoadBalancerName.
    rewrite Split_head, HU. apply Contains_false in Hseg.
    rewrite (Cut_single "-" seg rest Hseg).
    now rewrite !GoStringsFacts.app_assoc. }
  split; [exact H1|]. split.
  - intros service HU. unfold GetLoadBalancerName.
    rewrite Split_head. apply Contains_false in HU. rewrite HU.
    now rewrite !GoStringsFacts.app_assoc.
  - intros s1 s2 seg r1 r2 Hseg HU1 HU2 Hn.
    rewrite (H1 s1 seg r1 Hseg HU1), (H1 s2 seg r2 Hseg HU2). now rewrite Hn.
Qed.

(** Two services named "web" in two namespaces. *)
Lemma GetLoadBalancerName_segment_witness :
  GetLoadBalancerName sampleProvider
    {| SvcName := "web"; SvcNamespace := "team-a"; SvcUID := "abc123-1111";
       SvcType := "LoadBalancer"; SvcPorts := [] |}
  = GetLoadBalancerName sampleProvider
      {| SvcName := "web"; SvcNamespace := "team-b"; SvcUID := "abc123-2222";
         SvcType := "LoadBalancer"; SvcPorts := [] |}.
Proof.
  apply (proj2 (proj2 (GetLoadBalancerName_segment sampleProvider))
           _ _ "abc123" "1111" "2222"); reflexivity.
Defined.

(** The two loops of [buildLoadBalancerRequest]. *)
Lemma appendInternalIP_find (addrs : list NodeAddress) (nodeIPs : list string) :
  appendInternalIP addrs nodeIPs =
  nodeIPs ++ option_list (Address <$> find isInternalIP addrs).
Proof.
  induction addrs as [|addr rest IH]; simpl.
  - now rewrite app_nil_r.
  - unfold isInternalIP at 1. destruct (AddrType addr); simpl; auto.
Qed.

Lemma nodeIPs_fold (nodes : list NodeStatus) (acc : list string) :
  fold_left (fun nodeIPs node => appendInternalIP (Addresses node) nodeIPs)
    nodes acc
  = acc ++ omap (fun node => Address <$> find isInternalIP (Addresses node))
             nodes.
Proof.
  revert acc. induction nodes as [|node nodes IH]; intros acc; simpl.
  - now rewrite app_nil_r.
  - rewrite IH, appendInternalIP_find.
    destruct (find isInternalIP (Addresses node)); simpl;
      now rewrite <- ?app_assoc, ?app_nil_r.
Qed.

Lemma ports_fold (ports : list ServicePort) (acc : list LoadBalancerPort) :
  fold_left (fun ports svcPort => ports ++ [buildPort svcPort]) ports acc
  = acc ++ map buildPort ports.
Proof.
  revert acc. induction ports as [|sp ports IH]; intros acc; simpl.
  - now rewrite app_nil_r.
  - now rewrite IH, <- app_assoc.
Qed.

(** X23: the nodes of a load balancer request are the first internal
    address of each node that has one, in the order of the nodes; a
    node without an internal address is left out without a word, so
    the request can name fewer nodes than it was given; further
    internal addresses of a node are not used. *)
Theorem buildLoadBalancerRequest_nodes (name : string) (service : Service)
    (nodes : list NodeStatus) :
  let req := buildLoadBalancerRequest name service nodes in
  ReqNodes req =
    omap (fun node => Address <$> find isInternalIP (Addresses node)) nodes /\
  (length (ReqNodes req) <= length nodes)%nat /\
  (length (ReqNodes req) = length nodes <->
   Forall (fun node => existsb isInternalIP (Addresses node) = true) nodes).
Proof.
  intros req. subst req. unfold buildLoadBalancerRequest. simpl.
  rewrite nodeIPs_fold. simpl. split; [reflexivity|].
  assert (Hlen : forall l : list NodeStatus,
    (length (omap (fun node => Address <$> find isInternalIP (Addresses node)) l)
     <= length l)%nat).
  { unfold omap. induction l as [|n l IH]; simpl; [lia|].
    destruct (find isInternalIP (Addresses n)); simpl; lia. }
  split; [apply Hlen|].
  unfold omap in *. induction nodes as [|node nodes IH]; simpl.
  - split; [constructor | reflexivity].
  - assert (Hfind : existsb isInternalIP (Addresses node) = true <->
                    find isInternalIP (Addresses node) <> None).
    { induction (Addresses node) as [|a l IHl]; simpl.
      - split; [discriminate | congruence].
      - destruct (isInternalIP a); simpl; [split; congruence | exact IHl]. }
    destruct (find isInternalIP (Addresses node)) eqn:Hf; simpl.
    + split.
      * intros [= Hl]. constructor; [apply Hfind; congruence | now apply IH].
      * intros Hall. inversion Hall; subst. f_equal. now apply IH.
    + split.
      * intros Hl. pose proof (Hlen nodes). lia.
      * intros Hall. inversion Hall as [|? ? Hex _]; subst.
        apply Hfind in Hex. congruence.
Qed.

(** X24: a load balancer request has one port for each port of the
    service, in the same order, and no port of it is without a name:
    a named port keeps its name, an unnamed one is called "port-"
    followed by its number. *)
Theorem buildLoadBalancerRequest_ports (name : string) (service : Service)
    (nodes : list NodeStatus) :
  let req := buildLoadBalancerRequest name service nodes in
  ReqPorts req = map buildPort (SvcPorts service) /\
  length (ReqPorts req) = length (SvcPorts service) /\
  Forall (fun port => LbPortName port <> "") (ReqPorts req) /\
  Forall2
    (fun svcPort port =>
       LbPort port = Port svcPort /\
       LbPortName port =
         (if String.eqb (PortName svcPort) "" then "port-" +:+ Itoa (Port svcPort)
          else PortName svcPort))
    (SvcPorts service) (ReqPorts req).
Proof.
  intros req. subst req. unfold buildLoadBalancerRequest. simpl.
  rewrite ports_fold. simpl. split; [reflexivity|].
  split; [apply length_map|]. split.
  - apply Forall_forall. intros port Hin.
    apply list_elem_of_fmap in Hin as (sp & -> & _).
    unfold buildPort. simpl.
    destruct (String.eqb_spec (PortName sp) ""); [discriminate | assumption].
  - induction (SvcPorts service) as [|sp l IH]; simpl; constructor;
      [now split | exact IH].
Qed.

Section LoadBalancerMore.

Variable newRequestError : string -> string -> option string.
Variable decodeLoadBalancer : string -> string + LoadBalancerResponse.

Lemma Request_one_of (p : VCloudProvider) (ctx : Context)
    (method path : string) (body : option string) (w : World) :
  let res := (Request newRequestError p ctx method path body w).1 in
  (exists r, res = (Some r, None)) \/ (exists e, res = (None, Some e)).
Proof.
  unfold Request.
  apply (retryLoop_result newRequestError p ctx method body
           (requestURL p path) maxRetries 0 None w); unfold maxRetries; lia.
Qed.

Lemma status_fold (ips : list string) (acc : LoadBalancerStatus) :
  fold_left (fun status ip => status ++ [{| IngressIP := ip |}]) ips acc
  = acc ++ map (fun ip => {| IngressIP := ip |}) ips.
Proof.
  revert acc. induction ips as [|ip ips IH]; intros acc; simpl.
  - now rewrite app_nil_r.
  - now rewrite IH, <- app_assoc.
Qed.

Lemma GetLoadBalancer_cases (p : VCloudProvider) (ctx : Context)
    (service : Service) (w : World) :
  let path := "/ingresses/" +:+ GetLoadBalancerName p service in
  let run := GetLoadBalancer newRequestError decodeLoadBalancer p ctx service w in
  run.1 <> Crash /\
  (forall r w',
     Request newRequestError p ctx "GET" path None w = ((Some r, None), w') ->
     run =
       (if StatusCode r =? 404 then Done (None, false)
        else if StatusCode r =? 200 then
          match decodeLoadBalancer (Body r) with
          | inl cause => Fail (ErrLB (ErrDecode cause))
          | inr lbResp =>
              Done (Some (map (fun ip => {| IngressIP := ip |})
                            (LbIngress lbResp)), true)
          end
        else Fail (ErrLB (ErrUnexpectedStatus (StatusCode r) (Body r))),
        w')) /\
  (forall resp e w',
     Request newRequestError p ctx "GET" path None w = ((resp, Some e), w') ->
     run = (Fail (ErrGetLoadBalancer (GetLoadBalancerName p service) e), w')).
Proof.
  intros path run. subst run. unfold GetLoadBalancer. fold path.
  pose proof (Request_one_of p ctx "GET" path None w) as Hone.
  destruct (Request newRequestError p ctx "GET" path None w)
    as [[resp err] w0].
  simpl in Hone. split; [|split].
  - destruct Hone as [[r [= -> ->]]|[e [= -> ->]]]; [|discriminate].
    destruct (StatusCode r =? 404); [discriminate|].
    destruct (negb _); [discriminate|].
    destruct (decodeLoadBalancer _); discriminate.
  - intros r w' [= -> -> ->].
    destruct (StatusCode r =? 404); [reflexivity|].
    destruct (StatusCode r =? 200); simpl; [|reflexivity].
    destruct (decodeLoadBalancer (Body r)); [reflexivity|].
    now rewrite status_fold.
  - now intros resp' e w' [= -> -> ->].
Qed.

Lemma EnsureLoadBalancerDeleted_cases (p : VCloudProvider) (ctx : Context)
    (service : Service) (w : World) :
  let path := "/ingresses/" +:+ GetLoadBalancerName p service in
  let run := EnsureLoadBalancerDeleted newRequestError p ctx service w in
  run.1 <> Crash /\
  (forall r w',
     Request newRequestError p ctx "DELETE" path None w
       = ((Some r, None), w') ->
     run =
       (if (StatusCode r =? 404) || (StatusCode r =? 200) then Done tt
        else Fail (ErrLB (ErrUnexpectedStatus (StatusCode r) (Body r))),
        w')) /\
  (forall resp e w',
     Request newRequestError p ctx "DELETE" path None w
       = ((resp, Some e), w') ->
     run = (Fail (ErrDeleteLoadBalancer e), w')).
Proof.
  intros path run. subst run. unfold EnsureLoadBalancerDeleted. fold path.
  pose proof (Request_one_of p ctx "DELETE" path None w) as Hone.
  destruct (Request newRequestError p ctx "DELETE" path None w)
    as [[resp err] w0].
  simpl in Hone. split; [|split].
  - destruct Hone as [[r [= -> ->]]|[e [= -> ->]]]; [|discriminate].
    destruct (StatusCode r =? 404); [discriminate|].
    destruct (negb _); discriminate.
  - intros r w' [= -> -> ->].
    destruct (StatusCode r =? 404); [reflexivity|].
    destruct (StatusCode r =? 200); reflexivity.
  - now intros resp' e w' [= -> -> ->].
Qed.

End LoadBalancerMore.

(** X25: [GetLoadBalancer] never dereferences a nil response.  On a
    response it reports a 404 as "no such load balancer" without an
    error, a 200 as the load balancer with one ingress for each
    ingress decoded, in the same order, and any other status, or a
    body that does not decode, as an error; an error of the request
    layer is wrapped with the name of the load balancer. *)
Theorem GetLoadBalancer_statuses
    (newRequestError : string -> string -> option string)
    (decodeLoadBalancer : string -> string + LoadBalancerResponse)
    (p : VCloudProvider) (ctx : Context) (service : Service) (w : World) :
  let path := "/ingresses/" +:+ GetLoadBalancerName p service in
  let run := GetLoadBalancer newRequestError decodeLoadBalancer p ctx service w in
  run.1 <> Crash /\
  (forall r w',
     Request newRequestError p ctx "GET" path None w = ((Some r, None), w') ->
     run =
       (if StatusCode r =? 404 then Done (None, false)
        else if StatusCode r =? 200 then
          match decodeLoadBalancer (Body r) with
          | inl cause => Fail (ErrLB (ErrDecode cause))
          | inr lbResp =>
              Done (Some (map (fun ip => {| IngressIP := ip |})
                            (LbIngress lbResp)), true)
          end
        else Fail (ErrLB (ErrUnexpectedStatus (StatusCode r) (Body r))),
        w')) /\
  (forall resp e w',
     Request newRequestError p ctx "GET" path None w = ((resp, Some e), w') ->
     run = (Fail (ErrGetLoadBalancer (GetLoadBalancerName p service) e), w')).
Proof. apply GetLoadBalancer_cases. Qed.

(** A load balancer with one ingress. *)
Lemma GetLoadBalancer_statuses_witness :
  (GetLoadBalancer noRequestError sampleDecodeLB sampleProvider background
     sampleService (startWorld [answer 200 "203.0.113.10"])).1
  = Done (Some [{| IngressIP := "203.0.113.10" |}], true).
Proof.
  rewrite (proj1 (proj2
    (GetLoadBalancer_statuses noRequestError sampleDecodeLB sampleProvider
       background sampleService (startWorld [answer 200 "203.0.113.10"])))
    {| StatusCode := 200; Body := "203.0.113.10" |} _ eq_refl).
  reflexivity.
Defined.

(** X26: deleting a load balancer succeeds on a 200 and on a 404
    alike, so deleting what is already gone is no error; every other
    status, 204 included, is an error that carries the status and
    the body; an error of the request layer is wrapped.  No nil
    response is dereferenced. *)
Theorem EnsureLoadBalancerDeleted_statuses
    (newRequestError : string -> string -> option string)
    (p : VCloudProvider) (ctx : Context) (service : Service) (w : World) :
  let path := "/ingresses/" +:+ GetLoadBalancerName p service in
  let run := EnsureLoadBalancerDeleted newRequestError p ctx service w in
  run.1 <> Crash /\
  (forall r w',
     Request newRequestError p ctx "DELETE" path None w
       = ((Some r, None), w') ->
     run =
       (if (StatusCode r =? 404) || (StatusCode r =? 200) then Done tt
        else Fail (ErrLB (ErrUnexpectedStatus (StatusCode r) (Body r))),
        w')) /\
  (forall resp e w',
     Request newRequestError p ctx "DELETE" path None w
       = ((resp, Some e), w') ->
     run = (Fail (ErrDeleteLoadBalancer e), w')).
Proof. apply EnsureLoadBalancerDeleted_cases. Qed.

(** A 204 from the API. *)
Lemma EnsureLoadBalancerDeleted_statuses_witness :
  (EnsureLoadBalancerDeleted noRequestError sampleProvider background
     sampleService (startWorld [answer 204 ""])).1
  = Fail (ErrLB (ErrUnexpectedStatus 204 "")).
Proof.
  rewrite (proj1 (proj2
    (EnsureLoadBalancerDeleted_statuses noRequestError sampleProvider
       background sampleService (startWorld [answer 204 ""])))
    {| StatusCode := 204; Body := "" |} _ eq_refl).
  reflexivity.
Defined.

(** X27: [get] and the three node operations never dereference a
    nil record or response: whatever the remote end and the context
    do, they return a value or an error. *)
Theorem operations_never_crash
    (newRequestError : string -> string -> option string)
    (decodeInstance : string -> string + Instance)
    (i : VCloudInstances) (ctx : Context) (node : Node) (w : World) :
  (forall id,
     (get newRequestError decodeInstance (instCache i) ctx id w).1.1
       <> NilDeref) /\
  (InstancesV2.InstanceExists newRequestError decodeInstance i ctx node w).1.1
    <> Crash /\
  (InstancesV2.InstanceShutdown newRequestError decodeInstance i ctx node w).1.1
    <> Crash /\
  (InstancesV2.InstanceMetadata newRequestError decodeInstance i ctx node w).1.1
    <> Crash.
Proof.
  assert (Hget : forall id,
    (get newRequestError decodeInstance (instCache i) ctx id w).1.1
      <> NilDeref).
  { intros id. rewrite get_unfold.
    destruct (freshEntry (instCache i) id (clock w)); [discriminate|].
    destruct (fetchAndStore_spec newRequestError decodeInstance (instCache i)
                ctx id w) as (Hr & _).
    rewrite Hr.
    apply (GetInstanceInfo_ok newRequestError decodeInstance). }
  split; [exact Hget|].
  destruct (String.eqb_spec (getProviderID node) "") as [He|Hne].
  { unfold InstancesV2.InstanceExists, InstancesV2.InstanceShutdown,
      InstancesV2.InstanceMetadata.
    rewrite He. simpl. repeat split; discriminate. }
  destruct (operations_get newRequestError decodeInstance i ctx node w Hne)
    as (-> & -> & ->).
  specialize (Hget (getProviderID node)).
  destruct (get newRequestError decodeInstance (instCache i) ctx
              (getProviderID node) w) as [[[inf|e|] c1] w1]; simpl in *;
    try contradiction; try (repeat split; discriminate).
  destruct (Exists inf); repeat split; discriminate.
Qed.
